(** * sql_learn: the SQL practice app (src/app.py)

    A shallow embedding of the store lifecycle ([reset_db], [init_db]), the
    query runner ([run_query], the [if run_clicked:] branch of [main]) and the
    schema viewer ([get_schema_summary]), together with the part of the
    [sqlite3] / [pandas] behaviour these functions rely on.

    Text is a Rocq [string]: one character per code point below 256.  The
    check mark of the two success messages is outside that range and is
    spelled by the bytes it has in the source file. *)

From Stdlib Require Import ZArith QArith Ascii String List Lia Bool.
From stdpp Require Import base option list gmap strings fin_maps pretty.
Import ListNotations.

Local Open Scope string_scope.
Local Open Scope Z_scope.

(** ** Python text methods *)

Module Py.

(** [str.isspace] on a single code point below 256: TAB..CR, FS..US, SPACE,
    NEL (0x85) and NBSP (0xA0). *)
Definition isspace (c : ascii) : bool :=
  let n := N_of_ascii c in
  ((9 <=? n) && (n <=? 13) || (28 <=? n) && (n <=? 32)
   || (n =? 133) || (n =? 160))%N.

(** Drop the longest prefix / suffix whose characters satisfy [p]. *)
Fixpoint lstrip_by (p : ascii -> bool) (s : string) : string :=
  match s with
  | EmptyString => EmptyString
  | String c r => if p c then lstrip_by p r else s
  end.

Fixpoint rstrip_by (p : ascii -> bool) (s : string) : string :=
  match s with
  | EmptyString => EmptyString
  | String c r =>
      match rstrip_by p r with
      | EmptyString => if p c then EmptyString else String c EmptyString
      | r' => String c r'
      end
  end.

Fixpoint mem_char (c : ascii) (chars : string) : bool :=
  match chars with
  | EmptyString => false
  | String d r => Ascii.eqb c d || mem_char c r
  end.

(** [s.strip()] *)
Definition strip (s : string) : string :=
  rstrip_by isspace (lstrip_by isspace s).

(** [s.rstrip(chars)]: every trailing character that occurs in [chars] goes. *)
Definition rstrip (chars s : string) : string :=
  rstrip_by (fun c => mem_char c chars) s.

(** [str.lower] on a code point below 256: A-Z and the accented capitals
    0xC0..0xDE (the multiplication sign 0xD7 apart) move up by 32. *)
Definition lower_char (c : ascii) : ascii :=
  let n := N_of_ascii c in
  if ((65 <=? n) && (n <=? 90)
      || (192 <=? n) && (n <=? 222) && negb (n =? 215))%N
  then ascii_of_N (n + 32) else c.

Fixpoint lower (s : string) : string :=
  match s with
  | EmptyString => EmptyString
  | String c r => String (lower_char c) (lower r)
  end.

(** [s.startswith(p)] *)
Definition startswith (s p : string) : bool := String.prefix p s.

(** Truth value of a string: [not s] holds for the empty string only. *)
Definition is_empty (s : string) : bool :=
  match s with EmptyString => true | _ => false end.

(** [str(n)] for a length. *)
Definition str_of_nat (n : nat) : string := pretty (N.of_nat n).

End Py.

(** ** The relational engine

    The fragment of SQLite that the statements of [reset_db] and
    [get_schema_summary] and the simple queries of the exercises need, on
    the two tables of the script.  A statement outside the fragment is
    answered [Unmodelled], never guessed. *)

Module Sqlite.

Inductive value :=
| Null
| Int (z : Z)
| Real (q : Q)
| Text (s : string).

Record column := {
  col_name : string;       (* as declared *)
  col_type : string;       (* declared type, as written *)
  col_notnull : bool;
  col_pk : bool            (* INTEGER PRIMARY KEY AUTOINCREMENT *)
}.

Record table := {
  tbl_name : string;
  tbl_columns : list column;
  tbl_foreign : list (string * string * string);  (* column, table, column *)
  tbl_rows : list (list value)                    (* in rowid order *)
}.

(** Table names are case-insensitive: both maps are keyed by the name in
    lower case.  [db_sequence] is the [sqlite_sequence] bookkeeping of
    AUTOINCREMENT. *)
Record database := {
  db_tables : gmap string table;
  db_sequence : gmap string Z
}.

Definition empty_db : database := {| db_tables := ∅; db_sequence := ∅ |}.

Inductive error :=
| OperationalError (msg : string)
| IntegrityError (msg : string).

Definition message (e : error) : string :=
  match e with OperationalError m | IntegrityError m => m end.

Inductive reply :=
| Unmodelled
| Fails (e : error)
| Done (db' : database) (description : list string)
       (rows : list (list value)) (dml : bool).

(** *** Tokens *)

Inductive token :=
| Word (w : string)
| Quoted (s : string)
| Sym (c : ascii).

Definition code (c : ascii) : N := N_of_ascii c.

Definition sql_space (c : ascii) : bool :=
  let n := code c in
  ((n =? 9) || (n =? 10) || (n =? 12) || (n =? 13) || (n =? 32))%N.

Definition is_digit (c : ascii) : bool :=
  let n := code c in ((48 <=? n) && (n <=? 57))%N.

Definition id_start (c : ascii) : bool :=
  let n := code c in
  ((65 <=? n) && (n <=? 90) || (97 <=? n) && (n <=? 122)
   || (n =? 95) || (128 <=? n))%N.

Definition id_char (c : ascii) : bool :=
  id_start c || is_digit c || (code c =? 36)%N.

Definition is_quote (c : ascii) : bool := (code c =? 39)%N.

Definition snoc (s : string) (c : ascii) : string := s ++ String c EmptyString.

Inductive lex_state :=
| Between
| InWord (acc : string)
| InQuote (acc : string)
| Closed (acc : string).   (* just after the closing quote *)

(** What a character does when no token is open. *)
Definition open_token (c : ascii) : lex_state * list token :=
  if sql_space c then (Between, [])
  else if id_char c then (InWord (String c EmptyString), [])
  else if is_quote c then (InQuote EmptyString, [])
  else (Between, [Sym c]).

(** [None]: the text has a literal the fragment does not read (a doubled
    quote, a blob literal, a quote left open), or a character of code 0,
    which the interpreter refuses before the engine sees the text. *)
Fixpoint lex (st : lex_state) (s : string) : option (list token) :=
  match s with
  | EmptyString =>
      match st with
      | Between => Some []
      | InWord a => Some [Word a]
      | InQuote _ => None
      | Closed a => Some [Quoted a]
      end
  | String c r =>
      if (code c =? 0)%N then None else
      match st with
      | Between =>
          let '(st', out) := open_token c in app out <$> lex st' r
      | InWord a =>
          if id_char c then lex (InWord (snoc a c)) r
          else if is_quote c then None
          else let '(st', out) := open_token c in
               (fun l => Word a :: out ++ l) <$> lex st' r
      | InQuote a =>
          if is_quote c then lex (Closed a) r else lex (InQuote (snoc a c)) r
      | Closed a =>
          if is_quote c then None
          else let '(st', out) := open_token c in
               (fun l => Quoted a :: out ++ l) <$> lex st' r
      end
  end.

Definition upper_char (c : ascii) : ascii :=
  let n := code c in
  if ((97 <=? n) && (n <=? 122))%N then ascii_of_N (n - 32) else c.

Definition lower_char (c : ascii) : ascii :=
  let n := code c in
  if ((65 <=? n) && (n <=? 90))%N then ascii_of_N (n + 32) else c.

Fixpoint map_string (f : ascii -> ascii) (s : string) : string :=
  match s with
  | EmptyString => EmptyString
  | String c r => String (f c) (map_string f r)
  end.

Definition upper : string -> string := map_string upper_char.
(** The key under which a table is filed. *)
Definition fold_name : string -> string := map_string lower_char.

Definition keywords : list string :=
  ["ABORT"; "ACTION"; "ADD"; "AFTER"; "ALL"; "ALTER"; "ALWAYS"; "ANALYZE";
   "AND"; "AS"; "ASC"; "ATTACH"; "AUTOINCREMENT"; "BEFORE"; "BEGIN";
   "BETWEEN"; "BY"; "CASCADE"; "CASE"; "CAST"; "CHECK"; "COLLATE"; "COLUMN";
   "COMMIT"; "CONFLICT"; "CONSTRAINT"; "CREATE"; "CROSS"; "CURRENT";
   "CURRENT_DATE"; "CURRENT_TIME"; "CURRENT_TIMESTAMP"; "DATABASE";
   "DEFAULT"; "DEFERRABLE"; "DEFERRED"; "DELETE"; "DESC"; "DETACH";
   "DISTINCT"; "DO"; "DROP"; "EACH"; "ELSE"; "END"; "ESCAPE"; "EXCEPT";
   "EXCLUDE"; "EXCLUSIVE"; "EXISTS"; "EXPLAIN"; "FAIL"; "FILTER"; "FIRST";
   "FOLLOWING"; "FOR"; "FOREIGN"; "FROM"; "FULL"; "GENERATED"; "GLOB";
   "GROUP"; "GROUPS"; "HAVING"; "IF"; "IGNORE"; "IMMEDIATE"; "IN"; "INDEX";
   "INDEXED"; "INITIALLY"; "INNER"; "INSERT"; "INSTEAD"; "INTERSECT";
   "INTO"; "IS"; "ISNULL"; "JOIN"; "KEY"; "LAST"; "LEFT"; "LIKE"; "LIMIT";
   "MATCH"; "MATERIALIZED"; "NATURAL"; "NO"; "NOT"; "NOTHING"; "NOTNULL";
   "NULL"; "NULLS"; "OF"; "OFFSET"; "ON"; "OR"; "ORDER"; "OTHERS"; "OUTER";
   "OVER"; "PARTITION"; "PLAN"; "PRAGMA"; "PRECEDING"; "PRIMARY"; "QUERY";
   "RAISE"; "RANGE"; "RECURSIVE"; "REFERENCES"; "REGEXP"; "REINDEX";
   "RELEASE"; "RENAME"; "REPLACE"; "RESTRICT"; "RETURNING"; "RIGHT";
   "ROLLBACK"; "ROW"; "ROWS"; "SAVEPOINT"; "SELECT"; "SET"; "TABLE"; "TEMP";
   "TEMPORARY"; "THEN"; "TIES"; "TO"; "TRANSACTION"; "TRIGGER"; "UNBOUNDED";
   "UNION"; "UNIQUE"; "UPDATE"; "USING"; "VACUUM"; "VALUES"; "VIEW";
   "VIRTUAL"; "WHEN"; "WHERE"; "WINDOW"; "WITH"; "WITHOUT"].

Definition mem_string (s : string) (l : list string) : bool :=
  existsb (String.eqb s) l.

Definition is_keyword (w : string) : bool := mem_string (upper w) keywords.

Definition starts_as_id (w : string) : bool :=
  match w with String c _ => id_start c | EmptyString => false end.

(** Names the fragment reads as plain identifiers: no keyword, none of the
    names SQLite gives a meaning of its own. *)
Definition plain_id (w : string) : bool :=
  starts_as_id w && negb (is_keyword w)
  && negb (mem_string (fold_name w) ["rowid"; "oid"; "_rowid_"; "true"; "false"])
  && negb (String.prefix "sqlite_" (fold_name w))
  && negb (String.prefix "pragma_" (fold_name w)).

(** The tables of the script.  A build of SQLite gives other names a
    meaning of its own ([json_each], [dbstat], ...), so the fragment reads
    no statement about a table of another name. *)
Definition script_tables : list string := ["users"; "orders"].

Definition kw (k : string) (t : token) : bool :=
  match t with Word w => String.eqb (upper w) k | _ => false end.

Definition sym (c : string) (t : token) : bool :=
  match t with Sym d => String.eqb (String d EmptyString) c | _ => false end.

Definition ident (t : token) : option string :=
  match t with Word w => if plain_id w then Some w else None | _ => None end.

Definition table_ident (t : token) : option string :=
  w ← ident t;
  if mem_string (fold_name w) script_tables then Some w else None.

(** *** Statements *)

Inductive selection :=
| SelStar
| SelCount (alias : string)
| SelCols (cols : list string).

Inductive stmt :=
| DropTableIfExists (t : string)
| CreateTable (t : string) (cols : list column)
              (fks : list (string * string * string))
| InsertInto (t : string) (cols : list string) (holes : nat)
| Select (sel : selection) (t : string) (cond : option (string * string))
| PragmaTableInfo (t : string).

Inductive parsed :=
| Outside                       (* not in the fragment *)
| SyntaxError (near : string)
| Stmt (s : stmt).

Fixpoint split_commas (l : list token) : list (list token) :=
  match l with
  | [] => [[]]
  | t :: r =>
      if sym "," t then [] :: split_commas r
      else match split_commas r with
           | g :: gs => (t :: g) :: gs
           | [] => [[t]]
           end
  end.

Fixpoint break_at (p : token -> bool) (l : list token)
  : option (list token * list token) :=
  match l with
  | [] => None
  | t :: r =>
      if p t then Some ([], r)
      else '(a, b) ← break_at p r; Some (t :: a, b)
  end.

Definition single_ident (g : list token) : option string :=
  match g with [t] => ident t | _ => None end.

Definition ident_list (l : list token) : option (list string) :=
  mapM single_ident (split_commas l).

(** A declared type, in capitals as the script writes it (how SQLite
    reports a type written otherwise depends on its version). *)
Definition type_word (t : token) : option string :=
  match t with
  | Word w => if mem_string w ["INTEGER"; "TEXT"; "REAL"]
              then Some w else None
  | _ => None
  end.

(** One entry between the parentheses of CREATE TABLE. *)
Definition parse_item (g : list token)
  : option (column + string * string * string) :=
  match g with
  | [n; ty] =>
      n ← ident n; ty ← type_word ty;
      Some (inl {| col_name := n; col_type := ty;
                   col_notnull := false; col_pk := false |})
  | [n; ty; k1; k2] =>
      n ← ident n; ty ← type_word ty;
      if kw "NOT" k1 && kw "NULL" k2
      then Some (inl {| col_name := n; col_type := ty;
                        col_notnull := true; col_pk := false |})
      else None
  | [n; ty; k1; k2; k3] =>
      n ← ident n; ty ← type_word ty;
      if String.eqb (upper ty) "INTEGER"
         && kw "PRIMARY" k1 && kw "KEY" k2 && kw "AUTOINCREMENT" k3
      then Some (inl {| col_name := n; col_type := ty;
                        col_notnull := false; col_pk := true |})
      else None
  | [f; k; l1; c; r1; refs; t; l2; c2; r2] =>
      c ← ident c; t ← ident t; c2 ← ident c2;
      if kw "FOREIGN" f && kw "KEY" k && sym "(" l1 && sym ")" r1
         && kw "REFERENCES" refs && sym "(" l2 && sym ")" r2
      then Some (inr (c, t, c2)) else None
  | _ => None
  end.

(** Column definitions first, table constraints after them. *)
Fixpoint sort_items (items : list (column + string * string * string))
  : option (list column * list (string * string * string)) :=
  match items with
  | [] => Some ([], [])
  | inl c :: r =>
      '(cs, fs) ← sort_items r; Some (c :: cs, fs)
  | inr f :: r =>
      '(cs, fs) ← sort_items r;
      match cs with [] => Some ([], f :: fs) | _ => None end
  end.

Definition names_distinct (cols : list column) : bool :=
  bool_decide (NoDup (map (fun c => fold_name (col_name c)) cols)).

(** The column a foreign key is declared on is one of the table. *)
Definition declared (cols : list column) (fk : string * string * string) : bool :=
  mem_string (fold_name fk.1.1) (map (fun c => fold_name (col_name c)) cols).

Definition parse_create (toks : list token) : option stmt :=
  match toks with
  | t :: l :: rest =>
      t ← table_ident t;
      if sym "(" l && forallb (sym ")") (drop (length rest - 1) rest)
         && negb (Nat.eqb (length rest) 0)
      then
        items ← mapM parse_item (split_commas (take (length rest - 1) rest));
        '(cols, fks) ← sort_items items;
        if Nat.eqb (length (filter (fun c => col_pk c = true) cols)) 1
           && names_distinct cols && forallb (declared cols) fks
        then Some (CreateTable t cols fks) else None
      else None
  | _ => None
  end.

Definition parse_insert (toks : list token) : option stmt :=
  match toks with
  | into :: t :: l :: rest =>
      t ← table_ident t;
      '(cols, rest) ← break_at (sym ")") rest;
      cols ← ident_list cols;
      match rest with
      | v :: l2 :: rest =>
          '(holes, rest) ← break_at (sym ")") rest;
          if kw "INTO" into && sym "(" l && kw "VALUES" v && sym "(" l2
             && forallb (fun g => match g with [h] => sym "?" h | _ => false end)
                        (split_commas holes)
             && Nat.eqb (length rest) 0
             && bool_decide (NoDup (map fold_name cols))
          then Some (InsertInto t cols (length (split_commas holes)))
          else None
      | _ => None
      end
  | _ => None
  end.

Definition parse_selection (toks : list token) : option selection :=
  match toks with
  | [s] => if sym "*" s then Some SelStar
           else c ← ident s; Some (SelCols [c])
  | [f; l; s; r; a; n] =>
      if kw "COUNT" f && sym "(" l && sym "*" s && sym ")" r && kw "AS" a
      then n ← ident n; Some (SelCount n)
      else SelCols <$> ident_list toks
  | _ => SelCols <$> ident_list toks
  end.

Definition parse_select (toks : list token) : option stmt :=
  '(sel, rest) ← break_at (kw "FROM") toks;
  sel ← parse_selection sel;
  match rest with
  | [t] => t ← table_ident t; Some (Select sel t None)
  | [t; w; c; e; Quoted v] =>
      t ← table_ident t; c ← ident c;
      if kw "WHERE" w && sym "=" e then Some (Select sel t (Some (c, v)))
      else None
  | _ => None
  end.

Definition parse_statement (toks : list token) : option stmt :=
  match toks with
  | k :: rest =>
      if kw "SELECT" k then parse_select rest
      else if kw "DROP" k then
        match rest with
        | [tb; i; e; t] =>
            if kw "TABLE" tb && kw "IF" i && kw "EXISTS" e
            then DropTableIfExists <$> table_ident t else None
        | _ => None
        end
      else if kw "CREATE" k then
        match rest with
        | tb :: rest => if kw "TABLE" tb then parse_create rest else None
        | [] => None
        end
      else if kw "INSERT" k then parse_insert rest
      else if kw "PRAGMA" k then
        match rest with
        | [Word f; l; t; r] =>
            if String.eqb (fold_name f) "table_info" && sym "(" l && sym ")" r
            then PragmaTableInfo <$> table_ident t else None
        | _ => None
        end
      else None
  | [] => None
  end.

(** One statement terminator at the end is part of the statement. *)
Definition drop_terminator (toks : list token) : list token :=
  match reverse toks with
  | t :: r => if sym ";" t then reverse r else toks
  | [] => toks
  end.

(** A text whose first token is a name that is no keyword is refused by the
    grammar at that token, whatever follows. *)
Definition parse (sql : string) : parsed :=
  match lex Between sql with
  | None => Outside
  | Some toks =>
      match toks with
      | Word w :: _ =>
          if starts_as_id w && negb (is_keyword w) then SyntaxError w
          else from_option Stmt Outside (parse_statement (drop_terminator toks))
      | _ => Outside
      end
  end.

(** *** Execution *)

Definition lookup_table (db : database) (t : string) : option table :=
  db_tables db !! fold_name t.

(** Position and definition of the column called [c] (names are
    case-insensitive). *)
Fixpoint find_column (cols : list column) (c : string) : option (nat * column) :=
  match cols with
  | [] => None
  | d :: r =>
      if String.eqb (fold_name (col_name d)) (fold_name c) then Some (0%nat, d)
      else '(i, d') ← find_column r c; Some (S i, d')
  end.

Definition no_such_table (t : string) : reply :=
  Fails (OperationalError ("no such table: " ++ t)).
Definition no_such_column (c : string) : reply :=
  Fails (OperationalError ("no such column: " ++ c)).

(** DROP TABLE IF EXISTS: the table goes, and with it its row of
    [sqlite_sequence]. *)
Definition drop_table (db : database) (t : string) : database :=
  {| db_tables := delete (fold_name t) (db_tables db);
     db_sequence := delete (fold_name t) (db_sequence db) |}.

Definition create_table (db : database) (t : string) (cols : list column)
    (fks : list (string * string * string)) : reply :=
  match lookup_table db t with
  | Some _ => Fails (OperationalError ("table " ++ t ++ " already exists"))
  | None =>
      Done {| db_tables :=
                <[fold_name t :=
                    {| tbl_name := t; tbl_columns := cols;
                       tbl_foreign := fks; tbl_rows := [] |}]> (db_tables db);
              db_sequence := db_sequence db |} [] [] false
  end.

(** The value a column of the declared type stores for a bound parameter.
    [None]: a conversion the fragment leaves out. *)
Definition store (ty : string) (v : value) : option value :=
  match v with
  | Null => Some Null
  | Int z =>
      if String.eqb (upper ty) "INTEGER" then Some (Int z)
      else if String.eqb (upper ty) "REAL" then
        if (Z.abs z <=? 2 ^ 53)%Z then Some (Real (inject_Z z)) else None
      else None
  | Real q => if String.eqb (upper ty) "REAL" then Some (Real q) else None
  | Text s => if String.eqb (upper ty) "TEXT" then Some (Text s) else None
  end.

Definition pk_index (cols : list column) : option nat :=
  fst <$> list_find (fun c => col_pk c = true) cols.

(** The largest rowid in use, 0 for an empty table. *)
Fixpoint max_rowid (i : nat) (rows : list (list value)) : option Z :=
  match rows with
  | [] => Some 0%Z
  | r :: rest =>
      match r !! i with
      | Some (Int z) => Z.max z <$> max_rowid i rest
      | _ => None
      end
  end.

(** The value the new row gets in column [d]. *)
Definition cell (rowid : Z) (named : list (string * value)) (d : column)
  : option value :=
  if col_pk d then Some (Int rowid)
  else match list_find (fun '(c, _) => fold_name c = fold_name (col_name d)) named with
       | Some (_, (_, v)) => store (col_type d) v
       | None => Some Null
       end.

Fixpoint first_null (t : string) (cols : list column) (row : list value)
  : option error :=
  match cols, row with
  | d :: cols', v :: row' =>
      match v with
      | Null =>
          if col_notnull d
          then Some (IntegrityError
                       ("NOT NULL constraint failed: " ++ t ++ "." ++ col_name d))
          else first_null t cols' row'
      | _ => first_null t cols' row'
      end
  | _, _ => None
  end.

Definition max_int64 : Z := 2 ^ 63 - 1.

Definition names_pk (cols : list column) (c : string) : bool :=
  match find_column cols c with Some (_, d) => col_pk d | None => false end.

Definition insert_row (db : database) (t : string) (cols : list string)
    (holes : nat) (params : list value) : reply :=
  match lookup_table db t with
  | None => no_such_table t
  | Some tbl =>
      match list_find (fun c => find_column (tbl_columns tbl) c = None) cols with
      | Some (_, c) =>
          Fails (OperationalError
                   ("table " ++ t ++ " has no column named " ++ c))
      | None =>
          if negb (Nat.eqb holes (length cols))
             || negb (Nat.eqb (length params) holes)
             || existsb (names_pk (tbl_columns tbl)) cols
          then Unmodelled
          else from_option id Unmodelled (
            i ← pk_index (tbl_columns tbl);
            top ← max_rowid i (tbl_rows tbl);
            let rowid :=
              (1 + Z.max top (default 0 (db_sequence db !! fold_name t)))%Z in
            row ← mapM (cell rowid (zip cols params)) (tbl_columns tbl);
            if (max_int64 <? rowid)%Z then None else
            Some match first_null (tbl_name tbl) (tbl_columns tbl) row with
                 | Some e => Fails e
                 | None =>
                     Done {| db_tables :=
                               <[fold_name t :=
                                   {| tbl_name := tbl_name tbl;
                                      tbl_columns := tbl_columns tbl;
                                      tbl_foreign := tbl_foreign tbl;
                                      tbl_rows := tbl_rows tbl ++ [row] |}]>
                                 (db_tables db);
                             db_sequence :=
                               <[fold_name t := rowid]> (db_sequence db) |}
                          [] [] true
                 end)
      end
  end.

(** Rows that pass WHERE c = 'v': text compares byte for byte, NULL never
    matches; a number in the column is left out of the fragment. *)
Fixpoint where_rows (i : nat) (v : string) (rows : list (list value))
  : option (list (list value)) :=
  match rows with
  | [] => Some []
  | r :: rest =>
      match r !! i with
      | Some (Text s) =>
          (fun l => if String.eqb s v then r :: l else l) <$> where_rows i v rest
      | Some Null => where_rows i v rest
      | _ => None
      end
  end.

(** WHERE names a column of the table; a name that is none of them but the
    alias of the count is read by SQLite as the count, which the fragment
    leaves out. *)
Definition names_alias (sel : selection) (c : string) : bool :=
  match sel with
  | SelCount a => String.eqb (fold_name a) (fold_name c)
  | _ => false
  end.

(** A result column named as written must be spelled as declared. *)
Definition exact_column (cols : list column) (c : string) : option (option nat) :=
  match find_column cols c with
  | None => Some None
  | Some (i, d) => if String.eqb (col_name d) c then Some (Some i) else None
  end.

Definition select_rows (db : database) (sel : selection) (t : string)
    (cond : option (string * string)) : reply :=
  match lookup_table db t with
  | None => no_such_table t
  | Some tbl =>
      let cols := tbl_columns tbl in
      let missing :=
        match sel with
        | SelCols cs => snd <$> list_find (fun c => find_column cols c = None) cs
        | _ => None
        end in
      match missing with
      | Some c => no_such_column c
      | None =>
          let filtered :=
            match cond with
            | None => inr (Some (tbl_rows tbl))
            | Some (c, v) =>
                match find_column cols c with
                | None => if names_alias sel c then inr None else inl c
                | Some (i, _) => inr (where_rows i v (tbl_rows tbl))
                end
            end in
          match filtered with
          | inl c => no_such_column c
          | inr None => Unmodelled
          | inr (Some rows) =>
              match sel with
              | SelStar =>
                  if forallb (fun r => Nat.eqb (length r) (length cols)) rows
                  then Done db (col_name <$> cols) rows false
                  else Unmodelled
              | SelCount a =>
                  Done db [a] [[Int (Z.of_nat (length rows))]] false
              | SelCols cs =>
                  from_option id Unmodelled (
                    idx ← mapM (fun c => mjoin (exact_column cols c)) cs;
                    out ← mapM (fun r => mapM (fun i => r !! i) idx) rows;
                    Some (Done db cs out false))
              end
          end
      end
  end.

(** PRAGMA table_info(t): one row per column in declaration order; no row,
    and no error, for a table that does not exist. *)
Definition table_info_columns : list string :=
  ["cid"; "name"; "type"; "notnull"; "dflt_value"; "pk"].

Definition bit (b : bool) : value := Int (if b then 1 else 0).

Definition table_info (db : database) (t : string) : list (list value) :=
  match lookup_table db t with
  | None => []
  | Some tbl =>
      imap (fun i d => [Int (Z.of_nat i); Text (col_name d); Text (col_type d);
                        bit (col_notnull d); Null; bit (col_pk d)])
           (tbl_columns tbl)
  end.

Definition exec (db : database) (s : stmt) (params : list value) : reply :=
  match s with
  | InsertInto t cols holes => insert_row db t cols holes params
  | _ =>
      match params with
      | _ :: _ => Unmodelled
      | [] =>
          match s with
          | DropTableIfExists t => Done (drop_table db t) [] [] false
          | CreateTable t cols fks => create_table db t cols fks
          | Select sel t cond => select_rows db sel t cond
          | PragmaTableInfo t => Done db table_info_columns (table_info db t) false
          | InsertInto _ _ _ => Unmodelled
          end
      end
  end.

Definition dquote : string := String (ascii_of_nat 34) EmptyString.

(** What the engine answers to a statement text with bound parameters. *)
Definition engine (db : database) (sql : string) (params : list value) : reply :=
  match parse sql with
  | Outside => Unmodelled
  | SyntaxError w =>
      Fails (OperationalError ("near " ++ dquote ++ w ++ dquote ++ ": syntax error"))
  | Stmt s => exec db s params
  end.

End Sqlite.

(** ** The interpreter's side: exceptions, the store file, connections *)

Definition newline : string := String (ascii_of_nat 10) EmptyString.

Inductive exn :=
| OperationalError (msg : string)       (* sqlite3.OperationalError *)
| IntegrityError (msg : string)         (* sqlite3.IntegrityError *)
| DatabaseError (msg : string)          (* pandas.errors.DatabaseError *)
| KeyError (shown : string)             (* the repr of the missing key *)
| ProgrammingError (msg : string)       (* sqlite3.ProgrammingError *)
| TypeError (msg : string).

(** [str(exc)] *)
Definition str_exn (e : exn) : string :=
  match e with
  | OperationalError m | IntegrityError m | DatabaseError m | KeyError m
  | ProgrammingError m | TypeError m => m
  end.

Definition of_engine_error (e : Sqlite.error) : exn :=
  match e with
  | Sqlite.OperationalError m => OperationalError m
  | Sqlite.IntegrityError m => IntegrityError m
  end.

(** A [sqlite3.Connection]: whether it is open ([close()] not called on
    it), and the uncommitted state of its open transaction, if it has one.
    Locks between connections and the interpreter reclaiming a connection
    nobody refers to are not part of the model. *)
Record connection := {
  conn_open : bool;
  conn_txn : option Sqlite.database
}.

(** A connection as [sqlite3.connect] hands it out. *)
Definition new_connection : connection :=
  {| conn_open := true; conn_txn := None |}.

(** What any use of a connection after [close()] raises. *)
Definition closed_database : exn :=
  ProgrammingError "Cannot operate on a closed database.".

(** A [pandas.DataFrame]: column labels and rows. *)
Record dataframe := {
  df_columns : list string;
  df_rows : list (list Sqlite.value)
}.

(** What the Streamlit calls of the script put on the page. *)
Inductive widget :=
| st_warning (body : string)
| st_error (body : string)
| st_success (body : string)
| st_dataframe (df : dataframe).

Record world := {
  store_file : option Sqlite.database;  (* learn_sql.db; None: no such file *)
  connections : list connection;        (* every connection made so far *)
  sql_input : string;                   (* st.session_state.sql_input *)
  page : list widget                    (* rendered so far, in order *)
}.

Definition set_store (f : option Sqlite.database) (w : world) : world :=
  {| store_file := f; connections := connections w;
     sql_input := sql_input w; page := page w |}.
Definition set_connections (cs : list connection) (w : world) : world :=
  {| store_file := store_file w; connections := cs;
     sql_input := sql_input w; page := page w |}.
Definition render (x : widget) (w : world) : world :=
  {| store_file := store_file w; connections := connections w;
     sql_input := sql_input w; page := page w ++ [x] |}.

(** A call returns, raises, or leaves the modelled fragment ([Stuck]). *)
Inductive outcome (A : Type) :=
| Stuck
| Raised (e : exn) (w : world)
| Returned (a : A) (w : world).
Arguments Stuck {A}.
Arguments Raised {A} e w.
Arguments Returned {A} a w.

Definition M (A : Type) : Type := world -> outcome A.

Definition ret {A} (a : A) : M A := fun w => Returned a w.
Definition raise {A} (e : exn) : M A := fun w => Raised e w.
Definition stuck {A} : M A := fun _ => Stuck.
Definition bind {A B} (m : M A) (k : A -> M B) : M B := fun w =>
  match m w with
  | Stuck => Stuck
  | Raised e w' => Raised e w'
  | Returned a w' => k a w'
  end.
(** [try: m except Exception as exc: h exc] *)
Definition try_except {A} (m : M A) (h : exn -> M A) : M A := fun w =>
  match m w with
  | Stuck => Stuck
  | Raised e w' => h e w'
  | Returned a w' => Returned a w'
  end.
Definition modify (f : world -> world) : M unit := fun w => Returned tt (f w).
Definition st (x : widget) : M unit := modify (render x).

Declare Scope app_scope.
Delimit Scope app_scope with app.
Notation "'let*' x ':=' m 'in' k" := (bind m (fun x => k))
  (at level 10, x name, m at level 100, k at level 200) : app_scope.
Notation "m '>>' k" := (bind m (fun _ => k))
  (at level 100, k at level 200, right associativity) : app_scope.
Local Open Scope app_scope.

(** [for x in xs: f x] *)
Fixpoint for_each {A} (xs : list A) (f : A -> M unit) : M unit :=
  match xs with
  | [] => ret tt
  | x :: r => f x >> for_each r f
  end.

(** ** The program *)

(** A connection is known by its position in [connections]. *)
Abbreviation handle := nat (only parsing).

Fixpoint has_space (s : string) : bool :=
  match s with
  | EmptyString => false
  | String c r => Ascii.eqb c " " || has_space r
  end.

Section App.

(** The engine behind [sqlite3]; [Sqlite.engine] is the one used for the
    statements the model can read. *)
Variable engine : Sqlite.database -> string -> list Sqlite.value -> Sqlite.reply.

(** What pandas puts after the engine's message in the text of its own
    error, given the statement and the message.  The wording is pandas's and
    differs between its versions, so it is left open; it is used only for a
    statement of one word, see [hint_after]. *)
Variable pandas_hint : string -> string -> string.

(** [sqlite3.connect(DB_FILE)]: a new connection; the file comes into being,
    empty, if it was not there. *)
Definition sqlite3_connect : M handle := fun w =>
  Returned (length (connections w))
    (set_connections
       (connections w ++ [new_connection])
       (set_store (Some (default Sqlite.empty_db (store_file w))) w)).

(** src/app.py, [get_connection] *)
Definition get_connection : M handle := sqlite3_connect.

Definition set_txn (h : handle) (t : option Sqlite.database) (w : world) : world :=
  match connections w !! h with
  | Some c =>
      set_connections
        (<[h := {| conn_open := conn_open c; conn_txn := t |}]> (connections w)) w
  | None => w
  end.

(** [cursor.execute(sql, params)] followed by reading the cursor: the column
    labels and all rows.  A statement that changes rows opens a transaction
    when none is open; any other statement outside a transaction takes
    effect on the file at once. *)
Definition execute (h : handle) (sql : string) (params : list Sqlite.value)
  : M (list string * list (list Sqlite.value)) := fun w =>
  match connections w !! h, store_file w with
  | Some c, Some file =>
      if conn_open c then
        match engine (default file (conn_txn c)) sql params with
        | Sqlite.Unmodelled => Stuck
        | Sqlite.Fails e => Raised (of_engine_error e) w
        | Sqlite.Done db' description rows dml =>
            Returned (description, rows)
              (match conn_txn c with
               | Some _ => set_txn h (Some db') w
               | None => if dml then set_txn h (Some db') w
                         else set_store (Some db') w
               end)
        end
      else Raised closed_database w
  | _, _ => Stuck
  end.

(** [cursor.executemany(sql, seq)] *)
Definition executemany (h : handle) (sql : string)
    (seq : list (list Sqlite.value)) : M unit :=
  for_each seq (fun params => execute h sql params >> ret tt).

(** [conn.commit()] and [conn.rollback()] *)
Definition commit (h : handle) : M unit := fun w =>
  match connections w !! h with
  | Some c =>
      if conn_open c then
        Returned tt
          (match conn_txn c with
           | Some db => set_txn h None (set_store (Some db) w)
           | None => w
           end)
      else Raised closed_database w
  | None => Stuck
  end.

Definition rollback (h : handle) : M unit := fun w =>
  match connections w !! h with
  | Some c =>
      if conn_open c then Returned tt (set_txn h None w)
      else Raised closed_database w
  | None => Stuck
  end.

(** [with conn: body].  Leaving the block commits, or rolls back when the
    body raised; the connection is not closed by it. *)
Definition with_ {A} (conn : handle) (body : M A) : M A := fun w =>
  match body w with
  | Stuck => Stuck
  | Raised e w' => (rollback conn >> raise e) w'
  | Returned a w' => (commit conn >> ret a) w'
  end.

(** After the engine's message pandas adds nothing when the statement has
    a space inside it.  A statement of one word may be taken for the name of
    a table, and the text then goes on with a hint. *)
Definition hint_after (sql msg : string) : string :=
  if has_space (Py.strip sql) then "" else pandas_hint sql msg.

(** What pandas does when the engine refused the statement: roll back, then
    raise its own error around the engine's text. *)
Definition execution_failed (sql : string) (conn : handle) (exc : exn)
  : M (list string * list (list Sqlite.value)) :=
  let* rolled_back :=
    try_except (rollback conn >> ret true) (fun _ => ret false) in
  if (rolled_back : bool) then
    raise (DatabaseError
             ("Execution failed on sql '" ++ sql ++ "': " ++ str_exn exc
              ++ hint_after sql (str_exn exc)))
  else
    raise (DatabaseError
             ("Execution failed on sql: " ++ sql ++ newline ++ str_exn exc
              ++ newline ++ "unable to rollback"
              ++ hint_after sql (str_exn exc))).

(** [pd.read_sql_query(sql, conn)]: the statement is executed and the frame
    built from the cursor's column labels and rows; a statement that yields
    no columns leaves no labels to read. *)
Definition read_sql_query (sql : string) (conn : handle) : M dataframe :=
  let* cur := try_except (execute conn sql []) (execution_failed sql conn) in
  match fst cur with
  | [] => raise (TypeError "'NoneType' object is not iterable")
  | _ :: _ => ret {| df_columns := fst cur; df_rows := snd cur |}
  end.

(** [df[labels]]: the listed columns, in the listed order.  A missing label
    makes pandas raise; that case is left out ([None]). *)
Definition position (label : string) (labels : list string) : option nat :=
  fst <$> list_find (fun l => l = label) labels.

Definition df_getitem (df : dataframe) (labels : list string) : option dataframe :=
  idx ← mapM (fun l => position l (df_columns df)) labels;
  rows ← mapM (fun r => mapM (fun i => r !! i) idx) (df_rows df);
  Some {| df_columns := labels; df_rows := rows |}.

(** [d[k] = v] on a dict kept in insertion order. *)
Fixpoint dict_set {V} (k : string) (v : V) (d : list (string * V))
  : list (string * V) :=
  match d with
  | [] => [(k, v)]
  | (k', v') :: r =>
      if String.eqb k' k then (k, v) :: r else (k', v') :: dict_set k v r
  end.

(** [d[k]] for a string key. *)
Definition getitem (d : gmap string Sqlite.value) (k : string) : M Sqlite.value :=
  match d !! k with
  | Some v => ret v
  | None => raise (KeyError ("'" ++ k ++ "'"))
  end.

Fixpoint collect {A} (ms : list (M A)) : M (list A) :=
  match ms with
  | [] => ret []
  | m :: r => let* a := m in let* l := collect r in ret (a :: l)
  end.

(** [{name: user_id for user_id, name in rows}], as far as its string keys
    go (the only keys looked up).  A row that is no pair cannot be
    unpacked. *)
Fixpoint id_map_of (rows : list (list Sqlite.value))
    (acc : gmap string Sqlite.value) : option (gmap string Sqlite.value) :=
  match rows with
  | [] => Some acc
  | [user_id; Sqlite.Text name] :: r => id_map_of r (<[name := user_id]> acc)
  | [_; _] :: r => id_map_of r acc
  | _ :: _ => None
  end.

Definition create_users_sql : string :=
  newline ++
  "            CREATE TABLE users(" ++ newline ++
  "                id INTEGER PRIMARY KEY AUTOINCREMENT," ++ newline ++
  "                name TEXT NOT NULL," ++ newline ++
  "                email TEXT," ++ newline ++
  "                city TEXT" ++ newline ++
  "            )" ++ newline ++
  "            ".

Definition create_orders_sql : string :=
  newline ++
  "            CREATE TABLE orders(" ++ newline ++
  "                id INTEGER PRIMARY KEY AUTOINCREMENT," ++ newline ++
  "                user_id INTEGER NOT NULL," ++ newline ++
  "                amount REAL NOT NULL," ++ newline ++
  "                status TEXT NOT NULL," ++ newline ++
  "                created_at TEXT NOT NULL," ++ newline ++
  "                FOREIGN KEY (user_id) REFERENCES users(id)" ++ newline ++
  "            )" ++ newline ++
  "            ".

Definition users : list (list Sqlite.value) :=
  [ [Sqlite.Text "Adarsh"; Sqlite.Text "adarsh@mail.com"; Sqlite.Text "Goa"];
    [Sqlite.Text "Pranjali"; Sqlite.Text "pranjali@mail.com"; Sqlite.Text "Mumbai"];
    [Sqlite.Text "Rahul"; Sqlite.Text "rahul@mail.com"; Sqlite.Text "Pune"];
    [Sqlite.Text "Amit"; Sqlite.Text "amit@mail.com"; Sqlite.Text "Delhi"] ].

(** One tuple of the [orders] list: the owner's id is looked up by name. *)
Definition order_tuple (id_map : gmap string Sqlite.value) (owner : string)
    (amount : Z) (status created_at : string) : M (list Sqlite.value) :=
  let* user_id := getitem id_map owner in
  ret [user_id; Sqlite.Int amount; Sqlite.Text status; Sqlite.Text created_at].

Definition orders (id_map : gmap string Sqlite.value)
  : M (list (list Sqlite.value)) :=
  collect
    [ order_tuple id_map "Adarsh" 500 "PAID" "2026-01-10";
      order_tuple id_map "Adarsh" 999 "PENDING" "2026-01-11";
      order_tuple id_map "Pranjali" 1299 "PAID" "2026-01-11";
      order_tuple id_map "Rahul" 2500 "CANCELLED" "2026-01-12";
      order_tuple id_map "Amit" 799 "PAID" "2026-01-12";
      order_tuple id_map "Pranjali" 1500 "PENDING" "2026-01-13";
      order_tuple id_map "Rahul" 1800 "PAID" "2026-01-13" ].

(** src/app.py, [reset_db] *)
Definition reset_db : M unit :=
  let* conn := get_connection in
  with_ conn (
    execute conn "DROP TABLE IF EXISTS orders" [] >>
    execute conn "DROP TABLE IF EXISTS users" [] >>
    execute conn create_users_sql [] >>
    execute conn create_orders_sql [] >>
    executemany conn "INSERT INTO users (name, email, city) VALUES (?, ?, ?)"
      users >>
    let* cur := execute conn "SELECT id, name FROM users" [] in
    match id_map_of (snd cur) ∅ with
    | None => stuck
    | Some id_map =>
        let* orders := orders id_map in
        executemany conn
          "INSERT INTO orders (user_id, amount, status, created_at) VALUES (?, ?, ?, ?)"
          orders >>
        commit conn
    end).

(** [os.path.exists(DB_FILE)] *)
Definition path_exists : M bool := fun w =>
  Returned (bool_decide (is_Some (store_file w))) w.

(** src/app.py, [init_db] *)
Definition init_db : M unit :=
  let* there := path_exists in
  if negb there then reset_db else ret tt.

(** src/app.py, [run_query] *)
Definition run_query (query : string) : M dataframe :=
  let* conn := get_connection in
  with_ conn (read_sql_query query conn).

(** src/app.py, [get_schema_summary] *)
Fixpoint schema_loop (conn : handle) (tables : list string)
    (summary : list (string * dataframe)) : M (list (string * dataframe)) :=
  match tables with
  | [] => ret summary
  | table :: rest =>
      let* df := read_sql_query ("PRAGMA table_info(" ++ table ++ ");") conn in
      match df_getitem df ["name"; "type"] with
      | None => stuck
      | Some sub => schema_loop conn rest (dict_set table sub summary)
      end
  end.

Definition get_schema_summary : M (list (string * dataframe)) :=
  let* conn := get_connection in
  with_ conn (schema_loop conn ["users"; "orders"] []).

Definition check_mark : string := "✅".

(** src/app.py, [main]: the body of [if reset_clicked:] *)
Definition reset_clicked_branch : M unit :=
  reset_db >>
  st (st_success ("Database reset done " ++ check_mark)).

(** [st.session_state.sql_input] *)
Definition session_sql_input : M string := fun w => Returned (sql_input w) w.

(** src/app.py, [main]: the body of [if run_clicked:].  Of
    [st.dataframe(df, use_container_width=True)] the frame is kept. *)
Definition run_clicked_branch : M unit :=
  let* typed_text := session_sql_input in
  let query := Py.strip typed_text in
  if Py.is_empty query then
    st (st_warning "Please enter a SQL query.")
  else
    let query := Py.strip (Py.rstrip ";" query) in
    if negb (Py.startswith (Py.lower query) "select") then
      st (st_error
            "Only SELECT queries are allowed in this beginner app (for safety).")
    else
      try_except
        (let* df := run_query query in
         st (st_dataframe df) >>
         st (st_success ("Returned " ++ Py.str_of_nat (length (df_rows df))
                         ++ " rows " ++ check_mark)))
        (fun exc => st (st_error (str_exn exc))).

End App.

(** ** The query gate as the specification words it

    "Trim surrounding whitespace; if empty, reject with the empty-query
    reason.  Strip one trailing statement terminator (semicolon) and
    surrounding whitespace again.  Case-insensitively check that the
    remaining text begins with the keyword select; if not, reject with the
    only-read-queries-allowed reason.  Otherwise approve and pass the trimmed
    text through unchanged." *)

Module Spec.

Inductive rejection := EmptyQuery | DisallowedStatement.

Inductive verdict :=
| Rejected (why : rejection)
| Approved (query : string).

Definition chars (s : string) : list ascii := list_ascii_of_string s.
Definition text (l : list ascii) : string := string_of_list_ascii l.

Fixpoint skip (p : ascii -> bool) (l : list ascii) : list ascii :=
  match l with
  | c :: r => if p c then skip p r else l
  | [] => []
  end.

(** Whitespace off both ends. *)
Definition trim (s : string) : string :=
  text (rev (skip Py.isspace (rev (skip Py.isspace (chars s))))).

Definition is_semicolon (c : ascii) : bool := Ascii.eqb c ";".

(** Exactly one trailing semicolon, when there is one. *)
Definition strip_one_semicolon (s : string) : string :=
  match rev (chars s) with
  | c :: r => if is_semicolon c then text (rev r) else s
  | [] => s
  end.

(** Every trailing semicolon. *)
Definition strip_semicolons (s : string) : string :=
  text (rev (skip is_semicolon (rev (chars s)))).

(** [c] is the lower-case letter [k] or its capital. *)
Definition same_letter (k c : ascii) : bool :=
  Ascii.eqb c k || (N_of_ascii c + 32 =? N_of_ascii k)%N.

Fixpoint begins_with (keyword s : string) : bool :=
  match keyword, s with
  | EmptyString, _ => true
  | String k kr, String c r => same_letter k c && begins_with kr r
  | String _ _, EmptyString => false
  end.

Definition gate (strip_terminator : string -> string) (raw : string) : verdict :=
  let q := trim raw in
  if String.eqb q "" then Rejected EmptyQuery
  else
    let q := trim (strip_terminator q) in
    if begins_with "select" q then Approved q
    else Rejected DisallowedStatement.

(** The gate of the specification, and the gate with every trailing
    semicolon stripped. *)
Definition authorize : string -> verdict := gate strip_one_semicolon.
Definition authorize_all : string -> verdict := gate strip_semicolons.

End Spec.

Definition empty_query_warning : string := "Please enter a SQL query.".
Definition only_select_error : string :=
  "Only SELECT queries are allowed in this beginner app (for safety).".

(** What the run button does with a verdict of the gate: a warning, an
    error, or the approved text handed to [run_query] as it is, the table
    and the row count (or the failure's text) rendered. *)
Definition respond engine hint (v : Spec.verdict) : M unit :=
  match v with
  | Spec.Rejected Spec.EmptyQuery => st (st_warning empty_query_warning)
  | Spec.Rejected Spec.DisallowedStatement => st (st_error only_select_error)
  | Spec.Approved q =>
      try_except
        (let* df := run_query engine hint q in
         st (st_dataframe df) >>
         st (st_success ("Returned " ++ Py.str_of_nat (length (df_rows df))
                         ++ " rows " ++ check_mark)))
        (fun exc => st (st_error (str_exn exc)))
  end.

(** The world with [text] typed into the SQL input. *)
Definition typed (text : string) (w : world) : world :=
  {| store_file := store_file w; connections := connections w;
     sql_input := text; page := page w |}.

(** A first run: no store file, no connection, an empty page. *)
Definition fresh : world :=
  {| store_file := None; connections := []; sql_input := ""; page := [] |}.

(** A pandas that adds no hint to any statement. *)
Definition no_hint (sql msg : string) : string := "".

(** Inputs made of semicolons, and of characters of one kind. *)
Fixpoint semicolons (n : nat) : string :=
  match n with
  | O => EmptyString
  | S k => String ";" (semicolons k)
  end.

Fixpoint all_chars (p : ascii -> bool) (s : string) : bool :=
  match s with
  | EmptyString => true
  | String c r => p c && all_chars p r
  end.

(** The store is as it was: same file content, no connection made. *)
Definition store_untouched (w w' : world) : Prop :=
  store_file w' = store_file w /\ connections w' = connections w.

(** The world right after a connection has been made. *)
Definition connected (w : world) : world :=
  set_connections
    (connections w ++ [new_connection])
    (set_store (Some (default Sqlite.empty_db (store_file w))) w).

(** [m] keeps the property [I] of the world, however it ends. *)
Definition keeps (I : world -> Prop) {A} (m : M A) : Prop :=
  forall w, I w ->
    match m w with
    | Stuck => True
    | Raised _ w' => I w'
    | Returned _ w' => I w'
    end.

(** The store file is there. *)
Definition file_exists (w : world) : Prop := is_Some (store_file w).

(** The connections made before are as they were, and the one made last is
    open. *)
Definition last_open (before : list connection) (w : world) : Prop :=
  exists c, connections w = (before ++ [c])%list /\ conn_open c = true.

(** The input [q] is rejected for the reason [why]: [x] is rendered and the
    store is left alone. *)
Definition rejected_with engine hint (w : world) (q : string)
    (why : Spec.rejection) (x : widget) : Prop :=
  Spec.authorize_all q = Spec.Rejected why /\
  run_clicked_branch engine hint (typed q w) = Returned tt (render x (typed q w)) /\
  store_untouched w (render x (typed q w)).

(** The input [q] is approved and [text] is what goes to execution. *)
Definition approved_as engine hint (w : world) (q text : string) : Prop :=
  Spec.authorize_all q = Spec.Approved text /\
  run_clicked_branch engine hint (typed q w) =
  respond engine hint (Spec.Approved text) (typed q w).

(** A property of the world that the statements of a connection cannot
    break: it looks at nothing but what [set_txn] and a write to an existing
    file leave alone. *)
Definition stable (h : handle) (I : world -> Prop) : Prop :=
  (forall t w, I w -> I (set_txn h t w)) /\
  (forall db w, I w -> is_Some (store_file w) -> I (set_store (Some db) w)).

(** The invariant of a store access whose connection is number
    [length cs]. *)
Definition in_access (cs : list connection) (w : world) : Prop :=
  last_open cs w /\ file_exists w.

(** What holds when a [with conn:] block has been left: the connection is
    still open, its transaction ended; the file is there. *)
Definition left_open (cs : list connection) (w : world) : Prop :=
  connections w = (cs ++ [new_connection])%list
  /\ file_exists w.

(** *** The rest of a store

    A statement reads and writes the entries of one table.  [with_frame fr
    core] is the store [core] with the tables of [fr], which [core] does not
    have, beside it. *)
Definition table_of (s : Sqlite.stmt) : string :=
  match s with
  | Sqlite.DropTableIfExists t | Sqlite.CreateTable t _ _
  | Sqlite.InsertInto t _ _ | Sqlite.Select _ t _ | Sqlite.PragmaTableInfo t => t
  end.

Definition map_reply (f : Sqlite.database -> Sqlite.database) (r : Sqlite.reply)
  : Sqlite.reply :=
  match r with
  | Sqlite.Done db d rows dml => Sqlite.Done (f db) d rows dml
  | _ => r
  end.

Definition with_frame (fr core : Sqlite.database) : Sqlite.database :=
  {| Sqlite.db_tables := Sqlite.db_tables core ∪ Sqlite.db_tables fr;
     Sqlite.db_sequence := Sqlite.db_sequence core ∪ Sqlite.db_sequence fr |}.

(** [fr] has nothing filed under [k]. *)
Definition outside (fr : Sqlite.database) (k : string) : Prop :=
  Sqlite.db_tables fr !! k = None /\ Sqlite.db_sequence fr !! k = None.

(** The statements of a text all name one of the two tables. *)
Definition about_seed_tables (sql : string) : bool :=
  match Sqlite.parse sql with
  | Sqlite.Stmt s =>
      Sqlite.mem_string (Sqlite.fold_name (table_of s)) ["users"; "orders"]
  | _ => true
  end.

(** A store without its [users] and [orders]. *)
Definition without_seed_tables (db : Sqlite.database) : Sqlite.database :=
  {| Sqlite.db_tables := delete "users" (delete "orders" (Sqlite.db_tables db));
     Sqlite.db_sequence :=
       delete "users" (delete "orders" (Sqlite.db_sequence db)) |}.

(** A world seen with the tables of [fr] beside its own and the connections
    [cs] made before its own. *)
Definition framed_conn (fr : Sqlite.database) (c : connection) : connection :=
  {| conn_open := conn_open c; conn_txn := with_frame fr <$> conn_txn c |}.

Definition framed (fr : Sqlite.database) (cs : list connection) (w : world)
  : world :=
  {| store_file := with_frame fr <$> store_file w;
     connections := (cs ++ (framed_conn fr <$> connections w))%list;
     sql_input := sql_input w;
     page := page w |}.

Definition map_outcome {A} (f : world -> world) (o : outcome A) : outcome A :=
  match o with
  | Stuck => Stuck
  | Raised e w => Raised e (f w)
  | Returned a w => Returned a (f w)
  end.

(** A computation on a connection runs in the framed world as it runs in
    the plain one. *)
Definition natural (fr : Sqlite.database) (cs : list connection) {A}
    (f : handle -> M A) : Prop :=
  forall h w,
    f (length cs + h)%nat (framed fr cs w) = map_outcome (framed fr cs) (f h w).

(** ** The seed data, as it sits in the store after a reset *)

Definition users_table : Sqlite.table :=
  {| Sqlite.tbl_name := "users";
     Sqlite.tbl_columns :=
       [ {| Sqlite.col_name := "id"; Sqlite.col_type := "INTEGER";
            Sqlite.col_notnull := false; Sqlite.col_pk := true |};
         {| Sqlite.col_name := "name"; Sqlite.col_type := "TEXT";
            Sqlite.col_notnull := true; Sqlite.col_pk := false |};
         {| Sqlite.col_name := "email"; Sqlite.col_type := "TEXT";
            Sqlite.col_notnull := false; Sqlite.col_pk := false |};
         {| Sqlite.col_name := "city"; Sqlite.col_type := "TEXT";
            Sqlite.col_notnull := false; Sqlite.col_pk := false |} ];
     Sqlite.tbl_foreign := [];
     Sqlite.tbl_rows :=
       [ [Sqlite.Int 1; Sqlite.Text "Adarsh"; Sqlite.Text "adarsh@mail.com";
          Sqlite.Text "Goa"];
         [Sqlite.Int 2; Sqlite.Text "Pranjali"; Sqlite.Text "pranjali@mail.com";
          Sqlite.Text "Mumbai"];
         [Sqlite.Int 3; Sqlite.Text "Rahul"; Sqlite.Text "rahul@mail.com";
          Sqlite.Text "Pune"];
         [Sqlite.Int 4; Sqlite.Text "Amit"; Sqlite.Text "amit@mail.com";
          Sqlite.Text "Delhi"] ] |}.

(** An order row: id, owner's id, amount, status, date. *)
Definition order_row (id user_id amount : Z) (status created_at : string)
  : list Sqlite.value :=
  [Sqlite.Int id; Sqlite.Int user_id; Sqlite.Real (inject_Z amount);
   Sqlite.Text status; Sqlite.Text created_at].

Definition orders_table : Sqlite.table :=
  {| Sqlite.tbl_name := "orders";
     Sqlite.tbl_columns :=
       [ {| Sqlite.col_name := "id"; Sqlite.col_type := "INTEGER";
            Sqlite.col_notnull := false; Sqlite.col_pk := true |};
         {| Sqlite.col_name := "user_id"; Sqlite.col_type := "INTEGER";
            Sqlite.col_notnull := true; Sqlite.col_pk := false |};
         {| Sqlite.col_name := "amount"; Sqlite.col_type := "REAL";
            Sqlite.col_notnull := true; Sqlite.col_pk := false |};
         {| Sqlite.col_name := "status"; Sqlite.col_type := "TEXT";
            Sqlite.col_notnull := true; Sqlite.col_pk := false |};
         {| Sqlite.col_name := "created_at"; Sqlite.col_type := "TEXT";
            Sqlite.col_notnull := true; Sqlite.col_pk := false |} ];
     Sqlite.tbl_foreign := [("user_id", "users", "id")];
     Sqlite.tbl_rows :=
       [ order_row 1 1 500 "PAID" "2026-01-10";
         order_row 2 1 999 "PENDING" "2026-01-11";
         order_row 3 2 1299 "PAID" "2026-01-11";
         order_row 4 3 2500 "CANCELLED" "2026-01-12";
         order_row 5 4 799 "PAID" "2026-01-12";
         order_row 6 2 1500 "PENDING" "2026-01-13";
         order_row 7 3 1800 "PAID" "2026-01-13" ] |}.

(** The store [db] with its [users] and [orders] replaced by the seed
    tables; everything else of [db] is as it was. *)
Definition reseeded (db : Sqlite.database) : Sqlite.database :=
  {| Sqlite.db_tables :=
       <["orders" := orders_table]> (<["users" := users_table]> (Sqlite.db_tables db));
     Sqlite.db_sequence :=
       <["orders" := 7]> (<["users" := 4]> (Sqlite.db_sequence db)) |}.

(** The store that holds the seed data and nothing else. *)
Definition seed_db : Sqlite.database := reseeded Sqlite.empty_db.

(** The world after a reset: one more connection, the store reseeded. *)
Definition after_reset (w : world) : world :=
  set_connections
    (connections w ++ [new_connection])
    (set_store (Some (reseeded (default Sqlite.empty_db (store_file w)))) w).

(** What [reset_db] does once both tables are dropped. *)
Definition reset_rest (conn : handle) : M unit :=
  execute Sqlite.engine conn create_users_sql [] >>
  execute Sqlite.engine conn create_orders_sql [] >>
  executemany Sqlite.engine conn
    "INSERT INTO users (name, email, city) VALUES (?, ?, ?)" users >>
  let* cur := execute Sqlite.engine conn "SELECT id, name FROM users" [] in
  match id_map_of (snd cur) ∅ with
  | None => stuck
  | Some id_map =>
      let* orders := orders id_map in
      executemany Sqlite.engine conn
        "INSERT INTO orders (user_id, amount, status, created_at) VALUES (?, ?, ?, ?)"
        orders >>
      commit conn
  end.

(** *** Reading the seed data back *)

Definition same_id (a b : Sqlite.value) : bool :=
  match a, b with
  | Sqlite.Int x, Sqlite.Int y => Z.eqb x y
  | _, _ => false
  end.

Definition rows_of (db : Sqlite.database) (t : string) : list (list Sqlite.value) :=
  match Sqlite.db_tables db !! t with
  | Some tbl => Sqlite.tbl_rows tbl
  | None => []
  end.

(** The name of the account with the given id. *)
Definition owner_of (db : Sqlite.database) (user_id : Sqlite.value) : option string :=
  match List.filter (fun r => match r with
                              | id :: _ => same_id id user_id
                              | [] => false
                              end) (rows_of db "users") with
  | (_ :: Sqlite.Text name :: _) :: _ => Some name
  | _ => None
  end.

Definition order_owner (db : Sqlite.database) (r : list Sqlite.value) : option string :=
  match r with
  | _ :: user_id :: _ => owner_of db user_id
  | _ => None
  end.

(** The orders of the account called [name]. *)
Definition orders_of (db : Sqlite.database) (name : string)
  : list (list Sqlite.value) :=
  List.filter (fun r => bool_decide (order_owner db r = Some name))
              (rows_of db "orders").

(** Owner and amount of every order with the given status. *)
Definition orders_with_status (db : Sqlite.database) (status : string)
  : list (option string * Sqlite.value) :=
  flat_map (fun r => match r with
                     | [_; _; amount; Sqlite.Text s; _] =>
                         if String.eqb s status then [(order_owner db r, amount)]
                         else []
                     | _ => []
                     end) (rows_of db "orders").

(** What the schema viewer shows for table [t] of [db]: name and declared
    type of each column, in declaration order. *)
Definition describe (db : Sqlite.database) (t : string) : dataframe :=
  {| df_columns := ["name"; "type"];
     df_rows :=
       match Sqlite.db_tables db !! t with
       | Some tbl =>
           (fun d => [Sqlite.Text (Sqlite.col_name d); Sqlite.Text (Sqlite.col_type d)])
             <$> Sqlite.tbl_columns tbl
       | None => []
       end |}.

Definition count_paid_sql : string :=
  "SELECT COUNT(*) AS total_paid FROM orders WHERE status='PAID'".

(** The store a connection made in world [w] works on. *)
Definition store_of (w : world) : Sqlite.database :=
  default Sqlite.empty_db (store_file w).

(** The schema summary of the seed tables. *)
Definition seed_summary : list (string * dataframe) :=
  [ ("users",
     {| df_columns := ["name"; "type"];
        df_rows := [ [Sqlite.Text "id"; Sqlite.Text "INTEGER"];
                     [Sqlite.Text "name"; Sqlite.Text "TEXT"];
                     [Sqlite.Text "email"; Sqlite.Text "TEXT"];
                     [Sqlite.Text "city"; Sqlite.Text "TEXT"] ] |});
    ("orders",
     {| df_columns := ["name"; "type"];
        df_rows := [ [Sqlite.Text "id"; Sqlite.Text "INTEGER"];
                     [Sqlite.Text "user_id"; Sqlite.Text "INTEGER"];
                     [Sqlite.Text "amount"; Sqlite.Text "REAL"];
                     [Sqlite.Text "status"; Sqlite.Text "TEXT"];
                     [Sqlite.Text "created_at"; Sqlite.Text "TEXT"] ] |}) ].

(** A store file that is there and empty. *)
Definition empty_file : world :=
  {| store_file := Some Sqlite.empty_db; connections := [];
     sql_input := ""; page := [] |}.

(** ** The example library and the select box *)

(** src/app.py, [EXAMPLES]: label and query text, in the order written. *)
Definition EXAMPLES : list (string * string) :=
  [ ("Show all users", "SELECT * FROM users;");
    ("Users from Goa", "SELECT * FROM users WHERE city='Goa';");
    ("Orders by Adarsh",
     "SELECT o.*" ++ newline ++
     "FROM orders o" ++ newline ++
     "JOIN users u ON u.id = o.user_id" ++ newline ++
     "WHERE u.name = 'Adarsh';");
    ("Latest 3 orders",
     "SELECT * FROM orders ORDER BY created_at DESC LIMIT 3;");
    ("Total PAID amount",
     "SELECT SUM(amount) AS total_paid" ++ newline ++
     "FROM orders" ++ newline ++
     "WHERE status='PAID';");
    ("Orders with customer name (JOIN)",
     "SELECT o.id, u.name, o.amount, o.status, o.created_at" ++ newline ++
     "FROM orders o" ++ newline ++
     "JOIN users u ON u.id = o.user_id" ++ newline ++
     "ORDER BY o.created_at DESC;");
    ("Count users per city",
     "SELECT city, COUNT(*) AS total" ++ newline ++
     "FROM users" ++ newline ++
     "GROUP BY city;") ].

(** [d.get(k)]: [k in d] and [d[k]] in one, for a dict kept in insertion
    order. *)
Fixpoint dict_get {V} (d : list (string * V)) (k : string) : option V :=
  match d with
  | [] => None
  | (k', v) :: r => if String.eqb k' k then Some v else dict_get r k
  end.

(** The first entry of the select box, and its entries:
    [["Select an example"] + list(EXAMPLES.keys())]. *)
Definition no_example : string := "Select an example".
Definition example_options : list string := no_example :: (fst <$> EXAMPLES).

(** src/app.py, [main]: [load_example], the callback of the select box.
    [example_choice] is [st.session_state.example_choice], which the select
    box has set when it calls back. *)
Definition load_example (example_choice : string) : M unit :=
  let choice := example_choice in
  match dict_get EXAMPLES choice with
  | Some sql => modify (typed sql)
  | None => ret tt
  end.

(** *** Words for the properties below *)

(** What the run button can put on the page: the warning, an error text, or
    a table followed by its row count. *)
Definition row_count_message (df : dataframe) : string :=
  "Returned " ++ Py.str_of_nat (length (df_rows df)) ++ " rows " ++ check_mark.

Inductive run_page : list widget -> Prop :=
| page_warning : run_page [st_warning empty_query_warning]
| page_error msg : run_page [st_error msg]
| page_table df : run_page [st_dataframe df; st_success (row_count_message df)].

(** A property of the world that looks at neither the store file nor the
    connections. *)
Definition inert (I : world -> Prop) : Prop :=
  (forall f w, I w -> I (set_store f w)) /\
  (forall cs w, I w -> I (set_connections cs w)).

(** The names the seed orders are attached to, in the order they are looked
    up. *)
Definition seed_names : list string := ["Adarsh"; "Pranjali"; "Rahul"; "Amit"].

(** A frame of the schema viewer without a single column listed. *)
Definition no_columns : dataframe :=
  {| df_columns := ["name"; "type"]; df_rows := [] |}.

(** [s] is whitespace or semicolons throughout. *)
Definition strippable (c : ascii) : bool := Py.isspace c || Ascii.eqb c ";".

(** The text the run branch tests for its first word and, if it passes,
    hands to [run_query]: lines 182 and 186 of src/app.py. *)
Definition gate_text (q : string) : string :=
  Py.strip (Py.rstrip ";" (Py.strip q)).

(** The engine has an answer to what the run branch asks it about the typed
    text [q]: nothing if the gate rejects the text, else the text the gate
    hands on. *)
Definition answers
    (engine : Sqlite.database -> string -> list Sqlite.value -> Sqlite.reply)
    (w : world) (q : string) : Prop :=
  Py.startswith (Py.lower (gate_text q)) "select" = true ->
  engine (store_of w) (gate_text q) [] <> Sqlite.Unmodelled.

(** The first and the last character of a text, if any, are not ones to
    strip. *)
Definition clean_ends (p : ascii -> bool) (s : string) : Prop :=
  Py.lstrip_by p s = s /\ Py.rstrip_by p s = s.

(** * Properties *)

Example strip_ex : Py.strip "  SELECT * FROM users " = "SELECT * FROM users".
Proof. reflexivity. Qed.
Example rstrip_ex : Py.rstrip ";" "a;b;;;" = "a;b".
Proof. reflexivity. Qed.
Example lower_ex : Py.lower "SeLeCT *" = "select *".
Proof. reflexivity. Qed.
Example str_ex : Py.str_of_nat 42 = "42".
Proof. reflexivity. Qed.


(** ** Text methods against the words of the specification *)

Section Text.

Lemma text_chars s : Spec.text (Spec.chars s) = s.
Proof. apply string_of_list_ascii_of_string. Qed.

Lemma chars_text l : Spec.chars (Spec.text l) = l.
Proof. apply list_ascii_of_string_of_list_ascii. Qed.

Lemma chars_lstrip_by p s :
  Spec.chars (Py.lstrip_by p s) = Spec.skip p (Spec.chars s).
Proof.
  induction s as [|c r IH]; simpl; [reflexivity|].
  destruct (p c); [exact IH | reflexivity].
Qed.

Lemma skip_all p l : forallb p l = true -> Spec.skip p l = [].
Proof.
  induction l as [|c r IH]; simpl; [reflexivity|].
  destruct (p c); simpl; [exact IH | discriminate].
Qed.

Lemma skip_nil p l : Spec.skip p l = [] -> forallb p l = true.
Proof.
  induction l as [|c r IH]; simpl; [reflexivity|].
  destruct (p c); simpl; [exact IH | discriminate].
Qed.

Lemma skip_app_all p a b :
  forallb p a = true -> Spec.skip p (a ++ b)%list = Spec.skip p b.
Proof.
  induction a as [|x a IH]; simpl; intros Ha; [reflexivity|].
  destruct (p x); [apply IH; exact Ha | discriminate].
Qed.

Lemma skip_app_stop p a b x y :
  Spec.skip p a = x :: y -> Spec.skip p (a ++ b)%list = ((x :: y) ++ b)%list.
Proof.
  induction a as [|z a IH]; simpl; intros Ha; [discriminate|].
  destruct (p z); [apply IH; exact Ha | inversion Ha; reflexivity].
Qed.

(** Skipping from the far end, one more character in front. *)
Lemma rev_skip_cons p c l :
  rev (Spec.skip p (rev (c :: l))) =
  match rev (Spec.skip p (rev l)) with
  | [] => if p c then [] else [c]
  | r' => c :: r'
  end.
Proof.
  simpl rev at 2.
  destruct (Spec.skip p (rev l)) as [|d k] eqn:E.
  - rewrite skip_app_all by (apply skip_nil; exact E).
    simpl. destruct (p c); reflexivity.
  - rewrite (skip_app_stop _ _ _ _ _ E), rev_app_distr.
    simpl. destruct (rev k ++ [d])%list eqn:K; [|reflexivity].
    destruct (rev k); discriminate.
Qed.

Lemma chars_rstrip_by p s :
  Spec.chars (Py.rstrip_by p s) = rev (Spec.skip p (rev (Spec.chars s))).
Proof.
  induction s as [|c r IH]; [reflexivity|].
  change (Spec.chars (String c r)) with (c :: Spec.chars r).
  rewrite rev_skip_cons, <- IH. simpl.
  destruct (Py.rstrip_by p r); [destruct (p c)|]; reflexivity.
Qed.

Lemma strip_trim s : Py.strip s = Spec.trim s.
Proof.
  unfold Py.strip, Spec.trim.
  rewrite <- chars_lstrip_by, <- chars_rstrip_by. symmetry. apply text_chars.
Qed.

Lemma skip_semicolons l :
  Spec.skip (fun c => Py.mem_char c ";") l = Spec.skip Spec.is_semicolon l.
Proof.
  induction l as [|c l IH]; simpl; [reflexivity|].
  unfold Spec.is_semicolon. rewrite orb_false_r.
  destruct (Ascii.eqb c ";"); [exact IH | reflexivity].
Qed.

Lemma rstrip_semicolons s : Py.rstrip ";" s = Spec.strip_semicolons s.
Proof.
  unfold Py.rstrip, Spec.strip_semicolons.
  rewrite <- (text_chars (Py.rstrip_by _ s)), chars_rstrip_by, skip_semicolons.
  reflexivity.
Qed.

Lemma is_empty_eqb s : Py.is_empty s = String.eqb s "".
Proof. destruct s; reflexivity. Qed.

Lemma same_letter_lower k c :
  In k (Spec.chars "select") ->
  (if ascii_dec k (Py.lower_char c) then true else false) = Spec.same_letter k c.
Proof.
  intros Hk. simpl in Hk.
  destruct Hk as [<-|[<-|[<-|[<-|[<-|[<-|[]]]]]]];
    destruct c as [[] [] [] [] [] [] [] []]; reflexivity.
Qed.

Lemma startswith_lower keyword s :
  incl (Spec.chars keyword) (Spec.chars "select") ->
  Py.startswith (Py.lower s) keyword = Spec.begins_with keyword s.
Proof.
  unfold Py.startswith. revert s.
  induction keyword as [|k kr IH]; intros s Hk; [destruct s; reflexivity|].
  destruct s as [|c r]; [reflexivity|]. simpl.
  assert (In k (Spec.chars "select")) as Hin by (apply Hk; left; reflexivity).
  rewrite <- (same_letter_lower k c Hin).
  destruct (ascii_dec k (Py.lower_char c)); [|reflexivity].
  apply IH. intros x Hx. apply Hk. right. exact Hx.
Qed.

End Text.

(** ** The query gate *)

Section Gate.

Variable engine : Sqlite.database -> string -> list Sqlite.value -> Sqlite.reply.
Variable hint : string -> string -> string.

(** The run branch is the gate with every trailing semicolon stripped,
    followed by the response to its verdict. *)
Lemma run_clicked_branch_gate w :
  run_clicked_branch engine hint w =
  respond engine hint (Spec.authorize_all (sql_input w)) w.
Proof.
  unfold run_clicked_branch, bind, session_sql_input, Spec.authorize_all, Spec.gate.
  rewrite is_empty_eqb, !strip_trim, rstrip_semicolons.
  destruct (String.eqb (Spec.trim (sql_input w)) ""); [reflexivity|].
  rewrite startswith_lower by (intros x Hx; exact Hx).
  destruct (Spec.begins_with "select" _); reflexivity.
Qed.

Lemma chars_app a b : Spec.chars (a ++ b) = (Spec.chars a ++ Spec.chars b)%list.
Proof. induction a as [|c a IH]; simpl; [reflexivity | f_equal; exact IH]. Qed.

Lemma all_chars_forallb p s : all_chars p s = forallb p (Spec.chars s).
Proof. induction s as [|c r IH]; simpl; [reflexivity | rewrite IH; reflexivity]. Qed.

Lemma chars_semicolons n : Spec.chars (semicolons n) = repeat ";"%char n.
Proof. induction n as [|n IH]; simpl; [reflexivity | f_equal; exact IH]. Qed.

Lemma forallb_repeat (p : ascii -> bool) c n :
  p c = true -> forallb p (repeat c n) = true.
Proof. intros Hc. induction n; simpl; [reflexivity | rewrite Hc; assumption]. Qed.

Lemma forallb_rev (p : ascii -> bool) l : forallb p (rev l) = forallb p l.
Proof.
  induction l as [|c l IH]; simpl; [reflexivity|].
  rewrite forallb_app, IH. simpl. rewrite andb_true_r. apply andb_comm.
Qed.

(** Whitespace around a run of semicolons is trimmed away, the run stays. *)
Lemma trim_semicolons pre post n :
  all_chars Py.isspace pre = true ->
  all_chars Py.isspace post = true ->
  Spec.trim (pre ++ semicolons (S n) ++ post) = semicolons (S n).
Proof.
  rewrite !all_chars_forallb. intros Hpre Hpost.
  unfold Spec.trim.
  rewrite !chars_app, chars_semicolons, skip_app_all by exact Hpre.
  change (Spec.skip Py.isspace (repeat ";"%char (S n) ++ Spec.chars post)%list)
    with (repeat ";"%char (S n) ++ Spec.chars post)%list.
  rewrite rev_app_distr, skip_app_all by (rewrite forallb_rev; exact Hpost).
  rewrite rev_repeat. change (Spec.skip Py.isspace (repeat ";"%char (S n)))
    with (repeat ";"%char (S n)).
  rewrite rev_repeat, <- chars_semicolons. apply text_chars.
Qed.

Lemma strip_semicolons_all n : Spec.strip_semicolons (semicolons n) = "".
Proof.
  unfold Spec.strip_semicolons.
  rewrite chars_semicolons, rev_repeat, skip_all; [reflexivity|].
  apply forallb_repeat. reflexivity.
Qed.

Lemma authorize_all_semicolons pre post n :
  all_chars Py.isspace pre = true ->
  all_chars Py.isspace post = true ->
  Spec.authorize_all (pre ++ semicolons (S n) ++ post)
  = Spec.Rejected Spec.DisallowedStatement.
Proof.
  intros Hpre Hpost. unfold Spec.authorize_all, Spec.gate.
  rewrite trim_semicolons, strip_semicolons_all by assumption.
  reflexivity.
Qed.

(** A rejection renders one message and leaves the store alone. *)
Lemma respond_rejected why w :
  exists x, respond engine hint (Spec.Rejected why) w = Returned tt (render x w)
            /\ store_untouched w (render x w).
Proof.
  destruct why; eexists; (split; [reflexivity | split; reflexivity]).
Qed.

End Gate.

Example authorize_two_semicolons :
  Spec.authorize "SELECT * FROM users;;" = Spec.Approved "SELECT * FROM users;" /\
  Spec.authorize_all "SELECT * FROM users;;" = Spec.Approved "SELECT * FROM users".
Proof. split; reflexivity. Qed.

(** C2 (as stated): the claim has the gate strip exactly one trailing
    semicolon; on [SELECT * FROM users;;] the code hands on the text without
    both, the gate of the claim the text with one left. *)
Lemma gate_one_semicolon_refuted :
  ~ (forall engine hint w,
       run_clicked_branch engine hint w =
       respond engine hint (Spec.authorize (sql_input w)) w).
Proof.
  intros H.
  specialize (H Sqlite.engine no_hint (typed "SELECT * FROM users;;" fresh)).
  vm_compute in H. discriminate H.
Qed.

(** C2 (amended): the gate trims surrounding whitespace and rejects with the
    empty-query reason if nothing is left; otherwise it strips every trailing
    semicolon (not just one) and trims again, checks case-insensitively that
    the rest begins with [select], rejecting with the only-read-queries
    reason if not, and on approval hands that text to execution unchanged. *)
Theorem gate_strips_every_semicolon :
  forall engine hint w,
    run_clicked_branch engine hint w =
    respond engine hint (Spec.authorize_all (sql_input w)) w.
Proof. intros engine hint w. apply run_clicked_branch_gate. Qed.

(** C6: the empty and the blank input are rejected as EmptyQuery, the DELETE
    and the DROP as DisallowedStatement, each with its message rendered and
    the store untouched, as on every rejection; the padded SELECT is approved
    as [SELECT * FROM users], trimmed, a trailing semicolon removed. *)
Theorem gate_examples :
  forall engine hint w,
    rejected_with engine hint w "" Spec.EmptyQuery (st_warning empty_query_warning) /\
    rejected_with engine hint w "   " Spec.EmptyQuery (st_warning empty_query_warning) /\
    rejected_with engine hint w "DELETE FROM users;" Spec.DisallowedStatement
      (st_error only_select_error) /\
    rejected_with engine hint w "drop table orders" Spec.DisallowedStatement
      (st_error only_select_error) /\
    approved_as engine hint w "  SELECT * FROM users " "SELECT * FROM users" /\
    approved_as engine hint w "  SELECT * FROM users; " "SELECT * FROM users" /\
    (forall q,
       match Spec.authorize_all q with
       | Spec.Rejected _ =>
           exists w', run_clicked_branch engine hint (typed q w) = Returned tt w'
                      /\ store_untouched w w'
       | Spec.Approved _ => True
       end).
Proof.
  intros engine hint w. unfold rejected_with, approved_as, store_untouched.
  rewrite !run_clicked_branch_gate.
  repeat match goal with |- _ /\ _ => split end; try reflexivity.
  intros q. rewrite run_clicked_branch_gate. simpl sql_input.
  destruct (Spec.authorize_all q) as [why|]; [|exact I].
  destruct (respond_rejected engine hint why (typed q w)) as [x [Hx [Hs Hc]]].
  exists (render x (typed q w)). split; [exact Hx|]. split; reflexivity.
Qed.

(** C9: an input of semicolons only, whitespace around them or not, is
    rejected as DisallowedStatement (the only-SELECT error), not as
    EmptyQuery, and the store is not touched. *)
Theorem semicolons_only_disallowed :
  forall engine hint w pre post n,
    all_chars Py.isspace pre = true ->
    all_chars Py.isspace post = true ->
    let q := pre ++ semicolons (S n) ++ post in
    Spec.authorize_all q = Spec.Rejected Spec.DisallowedStatement /\
    run_clicked_branch engine hint (typed q w) =
    Returned tt (render (st_error only_select_error) (typed q w)) /\
    store_untouched w (render (st_error only_select_error) (typed q w)).
Proof.
  intros engine hint w pre post n Hpre Hpost q.
  pose proof (authorize_all_semicolons pre post n Hpre Hpost) as Hq.
  fold q in Hq. split; [exact Hq|]. split; [|split; reflexivity].
  rewrite run_clicked_branch_gate. simpl sql_input. rewrite Hq. reflexivity.
Qed.

Lemma semicolons_only_disallowed_witness :
  run_clicked_branch Sqlite.engine no_hint (typed " ;;; " fresh) =
  Returned tt (render (st_error only_select_error) (typed " ;;; " fresh)).
Proof.
  exact (proj1 (proj2 (semicolons_only_disallowed Sqlite.engine no_hint fresh " " " " 2
                         eq_refl eq_refl))).
Defined.

(** ** Connections and the store file *)

Section Lifecycle.

Variable engine : Sqlite.database -> string -> list Sqlite.value -> Sqlite.reply.
Variable hint : string -> string -> string.

Lemma lookup_last (cs : list connection) c : (cs ++ [c])%list !! length cs = Some c.
Proof. apply list_lookup_middle. reflexivity. Qed.

Lemma insert_last (cs : list connection) c c' :
  <[length cs := c']> (cs ++ [c])%list = (cs ++ [c'])%list.
Proof.
  rewrite insert_app_r_alt by lia. rewrite Nat.sub_diag. reflexivity.
Qed.

Lemma store_file_set_txn h t w : store_file (set_txn h t w) = store_file w.
Proof. unfold set_txn. destruct (connections w !! h); reflexivity. Qed.

Lemma set_txn_last cs c t w :
  connections w = (cs ++ [c])%list ->
  connections (set_txn (length cs) t w)
  = (cs ++ [{| conn_open := conn_open c; conn_txn := t |}])%list.
Proof.
  intros H. unfold set_txn. rewrite H, lookup_last. simpl.
  apply insert_last.
Qed.

(** *** Rules for [keeps] *)

Lemma keeps_ret I {A} (a : A) : keeps I (ret a).
Proof. intros w H. exact H. Qed.

Lemma keeps_raise I {A} e : keeps I (@raise A e).
Proof. intros w H. exact H. Qed.

Lemma keeps_stuck I {A} : keeps I (@stuck A).
Proof. intros w H. exact Logic.I. Qed.

Lemma keeps_bind I {A B} (m : M A) (k : A -> M B) :
  keeps I m -> (forall a, keeps I (k a)) -> keeps I (bind m k).
Proof.
  intros Hm Hk w H. unfold bind. specialize (Hm w H).
  destruct (m w) as [|e w'|a w']; [exact Logic.I | exact Hm | apply Hk; exact Hm].
Qed.

Lemma keeps_try_except I {A} (m : M A) h :
  keeps I m -> (forall e, keeps I (h e)) -> keeps I (try_except m h).
Proof.
  intros Hm Hh w H. unfold try_except. specialize (Hm w H).
  destruct (m w) as [|e w'|a w']; [exact Logic.I | apply Hh; exact Hm | exact Hm].
Qed.

Lemma keeps_modify I f : (forall w, I w -> I (f w)) -> keeps I (modify f).
Proof. intros Hf w H. apply Hf. exact H. Qed.

Lemma keeps_for_each I {A} (xs : list A) f :
  (forall x, keeps I (f x)) -> keeps I (for_each xs f).
Proof.
  intros Hf. induction xs as [|x r IH]; simpl.
  - apply keeps_ret.
  - apply keeps_bind; [apply Hf | intros _; exact IH].
Qed.

Lemma keeps_collect I {A} (ms : list (M A)) :
  Forall (keeps I) ms -> keeps I (collect ms).
Proof.
  induction 1 as [|m r Hm Hr IH]; simpl.
  - apply keeps_ret.
  - apply keeps_bind; [exact Hm|]. intros a.
    apply keeps_bind; [exact IH|]. intros l. apply keeps_ret.
Qed.

Lemma keeps_getitem I d k : keeps I (getitem d k).
Proof. unfold getitem. destruct (d !! k); [apply keeps_ret | apply keeps_raise]. Qed.

Lemma keeps_orders I id_map : keeps I (orders id_map).
Proof.
  unfold orders. apply keeps_collect.
  repeat constructor; unfold order_tuple;
    (apply keeps_bind; [apply keeps_getitem | intros; apply keeps_ret]).
Qed.

Lemma keeps_execute h I sql params :
  stable h I -> keeps I (execute engine h sql params).
Proof.
  intros [Ht Hs] w H. unfold execute.
  destruct (connections w !! h) as [c|]; [|exact Logic.I].
  destruct (store_file w) as [file|] eqn:F; [|exact Logic.I].
  destruct (conn_open c); [|exact H].
  destruct (engine _ sql params) as [|e|db' d rows dml]; [exact Logic.I | exact H |].
  destruct (conn_txn c); [apply Ht; exact H|].
  destruct dml; [apply Ht; exact H | apply Hs; [exact H | rewrite F; eauto]].
Qed.

Lemma keeps_executemany h I sql seq :
  stable h I -> keeps I (executemany engine h sql seq).
Proof.
  intros HI. unfold executemany. apply keeps_for_each. intros ps.
  apply keeps_bind; [apply keeps_execute; exact HI | intros; apply keeps_ret].
Qed.

Lemma keeps_rollback h I : stable h I -> keeps I (rollback h).
Proof.
  intros [Ht _] w H. unfold rollback.
  destruct (connections w !! h) as [c|]; [|exact Logic.I].
  destruct (conn_open c); [apply Ht; exact H | exact H].
Qed.

Lemma keeps_commit h I :
  stable h I -> keeps (fun w => I w /\ file_exists w) (commit h).
Proof.
  intros [Ht Hs] w [H F]. unfold commit.
  destruct (connections w !! h) as [c|]; [|exact Logic.I].
  destruct (conn_open c); [|split; assumption].
  destruct (conn_txn c) as [db|]; [|split; assumption].
  split.
  - apply Ht, Hs; assumption.
  - unfold file_exists. rewrite store_file_set_txn. simpl. eauto.
Qed.

Lemma stable_file_exists h : stable h file_exists.
Proof.
  split.
  - intros t w H. unfold file_exists. rewrite store_file_set_txn. exact H.
  - intros db w _ _. unfold file_exists. simpl. eauto.
Qed.

Lemma stable_and h I J : stable h I -> stable h J -> stable h (fun w => I w /\ J w).
Proof.
  intros [It Is] [Jt Js]. split.
  - intros t w [HI HJ]. split; [apply It | apply Jt]; assumption.
  - intros db w [HI HJ] F. split; [apply Is | apply Js]; assumption.
Qed.

Lemma stable_last_open cs : stable (length cs) (last_open cs).
Proof.
  split.
  - intros t w [c [Hc Ho]]. eexists. split; [apply set_txn_last; exact Hc | exact Ho].
  - intros db w H _. exact H.
Qed.

Lemma stable_in_access cs : stable (length cs) (in_access cs).
Proof. apply stable_and; [apply stable_last_open | apply stable_file_exists]. Qed.

Lemma in_access_connected w : in_access (connections w) (connected w).
Proof.
  split.
  - eexists. split; reflexivity.
  - unfold file_exists. simpl. eauto.
Qed.

Lemma with_leaves_open {A} cs (body : M A) w :
  keeps (in_access cs) body -> in_access cs w ->
  match with_ (length cs) body w with
  | Stuck => True
  | Raised _ w' => left_open cs w'
  | Returned _ w' => left_open cs w'
  end.
Proof.
  intros Hb Hw. unfold with_. specialize (Hb w Hw).
  destruct (body w) as [|e w'|a w']; [exact Logic.I| |];
    destruct Hb as [[c [Hc Ho]] F].
  - unfold bind, rollback, raise. rewrite Hc, lookup_last, Ho.
    split.
    + rewrite (set_txn_last _ _ _ _ Hc), Ho. reflexivity.
    + unfold file_exists. rewrite store_file_set_txn. exact F.
  - unfold bind, commit, ret. rewrite Hc, lookup_last, Ho.
    destruct c as [o [db|]]; simpl in *; subst o.
    + split.
      * apply (set_txn_last cs {| conn_open := true; conn_txn := Some db |}).
        exact Hc.
      * unfold file_exists. rewrite store_file_set_txn. simpl. eauto.
    + split; assumption.
Qed.

Lemma keeps_execution_failed cs sql exc :
  keeps (in_access cs) (execution_failed hint sql (length cs) exc).
Proof.
  unfold execution_failed. apply keeps_bind.
  - apply keeps_try_except; [|intros; apply keeps_ret].
    apply keeps_bind; [|intros; apply keeps_ret].
    apply keeps_rollback, stable_in_access.
  - intros []; apply keeps_raise.
Qed.

Lemma keeps_read_sql_query cs sql :
  keeps (in_access cs) (read_sql_query engine hint sql (length cs)).
Proof.
  unfold read_sql_query. apply keeps_bind.
  - apply keeps_try_except.
    + apply keeps_execute, stable_in_access.
    + intros e. apply keeps_execution_failed.
  - intros cur. destruct (fst cur); [apply keeps_raise | apply keeps_ret].
Qed.

Lemma keeps_reset_body cs :
  keeps (in_access cs)
    (execute engine (length cs) "DROP TABLE IF EXISTS orders" [] >>
     execute engine (length cs) "DROP TABLE IF EXISTS users" [] >>
     execute engine (length cs) create_users_sql [] >>
     execute engine (length cs) create_orders_sql [] >>
     executemany engine (length cs)
       "INSERT INTO users (name, email, city) VALUES (?, ?, ?)" users >>
     let* cur := execute engine (length cs) "SELECT id, name FROM users" [] in
     match id_map_of (snd cur) ∅ with
     | None => stuck
     | Some id_map =>
         let* orders := orders id_map in
         executemany engine (length cs)
           "INSERT INTO orders (user_id, amount, status, created_at) VALUES (?, ?, ?, ?)"
           orders >>
         commit (length cs)
     end).
Proof.
  pose proof (stable_in_access cs) as HS.
  repeat (apply keeps_bind;
          [first [apply keeps_execute | apply keeps_executemany]; exact HS
          | intros ?]).
  destruct (id_map_of _ _); [|apply keeps_stuck].
  apply keeps_bind; [apply keeps_orders | intros l].
  apply keeps_bind; [apply keeps_executemany; exact HS | intros _].
  apply keeps_commit, stable_last_open.
Qed.

Lemma keeps_schema_loop cs tables summary :
  keeps (in_access cs) (schema_loop engine hint (length cs) tables summary).
Proof.
  revert summary. induction tables as [|t r IH]; intros summary; simpl.
  - apply keeps_ret.
  - apply keeps_bind; [apply keeps_read_sql_query | intros df].
    destruct (df_getitem df _); [apply IH | apply keeps_stuck].
Qed.

(** Every store access opens one connection and returns, or raises, with
    that connection still open. *)
Lemma reset_db_leaves_open w :
  match reset_db engine w with
  | Stuck => True
  | Raised _ w' => left_open (connections w) w'
  | Returned _ w' => left_open (connections w) w'
  end.
Proof.
  apply (with_leaves_open (connections w) _ (connected w));
    [apply keeps_reset_body | apply in_access_connected].
Qed.

Lemma run_query_leaves_open q w :
  match run_query engine hint q w with
  | Stuck => True
  | Raised _ w' => left_open (connections w) w'
  | Returned _ w' => left_open (connections w) w'
  end.
Proof.
  apply (with_leaves_open (connections w) _ (connected w));
    [apply keeps_read_sql_query | apply in_access_connected].
Qed.

Lemma get_schema_summary_leaves_open w :
  match get_schema_summary engine hint w with
  | Stuck => True
  | Raised _ w' => left_open (connections w) w'
  | Returned _ w' => left_open (connections w) w'
  end.
Proof.
  apply (with_leaves_open (connections w) _ (connected w));
    [apply keeps_schema_loop | apply in_access_connected].
Qed.

(** [init_db] looks at the file and at nothing else. *)
Lemma init_db_absent w : store_file w = None -> init_db engine w = reset_db engine w.
Proof.
  intros H. unfold init_db, bind, path_exists. rewrite H.
  rewrite bool_decide_eq_false_2; [reflexivity|].
  intros [x Hx]. discriminate Hx.
Qed.

Lemma init_db_present w : file_exists w -> init_db engine w = Returned tt w.
Proof.
  intros H. unfold init_db, bind, path_exists.
  rewrite bool_decide_eq_true_2 by exact H. reflexivity.
Qed.

Lemma init_db_file_exists w :
  match init_db engine w with
  | Stuck => True
  | Raised _ w' => file_exists w'
  | Returned _ w' => file_exists w'
  end.
Proof.
  destruct (store_file w) as [db|] eqn:F.
  - rewrite init_db_present by (unfold file_exists; rewrite F; eauto).
    unfold file_exists. rewrite F. eauto.
  - rewrite init_db_absent by exact F.
    pose proof (reset_db_leaves_open w) as H.
    destruct (reset_db engine w); [exact Logic.I | apply H | apply H].
Qed.

End Lifecycle.

(** C3: when the store file does not exist [init_db] is [reset_db]; when it
    exists [init_db] changes nothing at all; so after a first call every
    further call is a no-op and never seeds again. *)
Theorem init_db_once :
  forall engine w,
    (store_file w = None -> init_db engine w = reset_db engine w) /\
    (file_exists w -> init_db engine w = Returned tt w) /\
    (forall w', init_db engine w = Returned tt w' ->
                init_db engine w' = Returned tt w').
Proof.
  intros engine w. split; [apply init_db_absent|].
  split; [apply init_db_present|].
  intros w' H. apply init_db_present.
  pose proof (init_db_file_exists engine w) as F. rewrite H in F. exact F.
Qed.

(** ** The engine and the rest of the store *)

Section Frame.

Import Sqlite.

Variables (fr core : database) (k : string).
Hypothesis Hout : outside fr k.

Lemma frame_lookup_table t :
  fold_name t = k -> lookup_table (with_frame fr core) t = lookup_table core t.
Proof.
  intros <-. unfold lookup_table, with_frame. simpl.
  apply lookup_union_l, Hout.
Qed.

Lemma frame_sequence :
  db_sequence (with_frame fr core) !! k = db_sequence core !! k.
Proof. unfold with_frame. simpl. apply lookup_union_l, Hout. Qed.

Lemma exec_frame s params :
  fold_name (table_of s) = k ->
  exec (with_frame fr core) s params = map_reply (with_frame fr) (exec core s params).
Proof.
  intros Hk. destruct s as [t|t cols fks|t cols holes|sel t cond|t]; simpl in Hk.
  - destruct params; simpl; [|reflexivity].
    unfold drop_table, with_frame. simpl. rewrite Hk.
    rewrite !delete_union, (delete_id (db_tables fr) k),
      (delete_id (db_sequence fr) k) by apply Hout. reflexivity.
  - destruct params; simpl; [|reflexivity].
    unfold create_table. rewrite (frame_lookup_table t Hk).
    destruct (lookup_table core t); [reflexivity|]. simpl.
    unfold with_frame. simpl. rewrite insert_union_l. reflexivity.
  - simpl. unfold insert_row. rewrite (frame_lookup_table t Hk).
    destruct (lookup_table core t) as [tbl|]; [|reflexivity].
    destruct (list_find _ cols) as [[? ?]|]; [reflexivity|].
    destruct (_ || _); [reflexivity|].
    destruct (pk_index _) as [i|]; [|reflexivity]. simpl.
    destruct (max_rowid _ _) as [top|]; [|reflexivity]. simpl.
    rewrite Hk, (lookup_union_l _ (db_sequence fr) k) by apply Hout.
    destruct (mapM _ _) as [row|]; [|reflexivity]. simpl.
    destruct (_ <? _)%Z; [reflexivity|]. simpl.
    destruct (first_null _ _ _); [reflexivity|]. simpl.
    unfold with_frame. simpl. rewrite !insert_union_l. reflexivity.
  - destruct params; simpl; [|reflexivity].
    unfold select_rows. rewrite (frame_lookup_table t Hk).
    destruct (lookup_table core t) as [tbl|]; [|reflexivity].
    destruct (match sel with SelCols cs => _ | _ => None end); [reflexivity|].
    destruct (match cond with Some _ => _ | None => _ end) as [c|[rows|]];
      [reflexivity| |reflexivity].
    destruct sel as [|a|cs]; [|reflexivity|].
    + destruct (forallb _ rows); reflexivity.
    + destruct (mapM _ cs) as [idx|]; [|reflexivity]. simpl.
      destruct (mapM _ rows); reflexivity.
  - destruct params; simpl; [|reflexivity].
    unfold table_info. rewrite (frame_lookup_table t Hk). reflexivity.
Qed.

End Frame.

Lemma engine_frame fr core sql params :
  outside fr "users" -> outside fr "orders" ->
  about_seed_tables sql = true ->
  Sqlite.engine (with_frame fr core) sql params
  = map_reply (with_frame fr) (Sqlite.engine core sql params).
Proof.
  intros Hu Ho. unfold about_seed_tables, Sqlite.engine.
  destruct (Sqlite.parse sql) as [|near|s]; [reflexivity..|].
  simpl. rewrite !orb_false_r. intros H. apply orb_true_iff in H.
  destruct H as [H|H]; apply String.eqb_eq in H.
  - apply (exec_frame fr core "users" Hu). exact H.
  - apply (exec_frame fr core "orders" Ho). exact H.
Qed.

(** ** Running beside the rest of the store *)

Section Simulation.

Variables (fr : Sqlite.database) (cs : list connection).
Variable hint : string -> string -> string.
Hypothesis Husers : outside fr "users".
Hypothesis Horders : outside fr "orders".

Local Notation "'F'" := (framed fr cs).
Local Notation "'engine'" := Sqlite.engine.

Lemma framed_lookup h w :
  connections (F w) !! (length cs + h)%nat = framed_conn fr <$> connections w !! h.
Proof.
  simpl. rewrite lookup_app_r by lia.
  replace (length cs + h - length cs)%nat with h by lia.
  apply list_lookup_fmap.
Qed.

Lemma framed_set_store db w :
  set_store (Some (with_frame fr db)) (F w) = F (set_store (Some db) w).
Proof. reflexivity. Qed.

Lemma framed_set_txn h t w :
  set_txn (length cs + h)%nat (with_frame fr <$> t) (F w) = F (set_txn h t w).
Proof.
  unfold set_txn. rewrite framed_lookup.
  destruct (connections w !! h) as [c|] eqn:E; [|reflexivity].
  unfold framed, set_connections. simpl. f_equal.
  rewrite insert_app_r_alt by lia.
  replace (length cs + h - length cs)%nat with h by lia.
  rewrite list_fmap_insert. reflexivity.
Qed.

Lemma natural_ret {A} (a : A) : natural fr cs (fun _ => ret a).
Proof. intros h w. reflexivity. Qed.

Lemma natural_raise {A} e : natural fr cs (fun _ => @raise A e).
Proof. intros h w. reflexivity. Qed.

Lemma natural_stuck {A} : natural fr cs (fun _ => @stuck A).
Proof. intros h w. reflexivity. Qed.

Lemma natural_bind {A B} (f : handle -> M A) (g : A -> handle -> M B) :
  natural fr cs f -> (forall a, natural fr cs (g a)) ->
  natural fr cs (fun h => bind (f h) (fun a => g a h)).
Proof.
  intros Hf Hg h w. unfold bind. rewrite Hf.
  destruct (f h w) as [|e w'|a w']; [reflexivity..|]. apply Hg.
Qed.

Lemma natural_try_except {A} (f : handle -> M A) (g : exn -> handle -> M A) :
  natural fr cs f -> (forall e, natural fr cs (g e)) ->
  natural fr cs (fun h => try_except (f h) (fun e => g e h)).
Proof.
  intros Hf Hg h w. unfold try_except. rewrite Hf.
  destruct (f h w) as [|e w'|a w']; [reflexivity| |reflexivity]. apply Hg.
Qed.

Lemma natural_execute sql params :
  about_seed_tables sql = true ->
  natural fr cs (fun h => execute engine h sql params).
Proof.
  intros Hsql h w. unfold execute. rewrite framed_lookup.
  destruct (connections w !! h) as [c|]; [|reflexivity].
  simpl. destruct (store_file w) as [file|]; [|reflexivity]. simpl.
  destruct (conn_open c); [|reflexivity].
  replace (default (with_frame fr file) (with_frame fr <$> conn_txn c))
    with (with_frame fr (default file (conn_txn c)))
    by (destruct (conn_txn c); reflexivity).
  rewrite engine_frame by assumption.
  destruct (engine _ sql params) as [|e|db' d rows dml]; [reflexivity..|].
  simpl. destruct (conn_txn c); simpl.
  - rewrite <- framed_set_txn. reflexivity.
  - destruct dml; [rewrite <- framed_set_txn|]; reflexivity.
Qed.

Lemma natural_for_each {A} (xs : list A) (f : A -> handle -> M unit) :
  (forall x, natural fr cs (f x)) ->
  natural fr cs (fun h => for_each xs (fun x => f x h)).
Proof.
  intros Hf. induction xs as [|x r IH]; simpl.
  - apply natural_ret.
  - apply (natural_bind (f x) (fun _ h => for_each r (fun x => f x h)));
      [apply Hf | intros _; exact IH].
Qed.

Lemma natural_executemany sql seq :
  about_seed_tables sql = true ->
  natural fr cs (fun h => executemany engine h sql seq).
Proof.
  intros Hsql. unfold executemany.
  apply (natural_for_each seq
           (fun params h => execute engine h sql params >> ret tt)).
  intros params.
  apply (natural_bind (fun h => execute engine h sql params) (fun _ _ => ret tt));
    [apply natural_execute; exact Hsql | intros; apply natural_ret].
Qed.

Lemma natural_commit : natural fr cs commit.
Proof.
  intros h w. unfold commit. rewrite framed_lookup.
  destruct (connections w !! h) as [c|]; [|reflexivity]. simpl.
  destruct (conn_open c); [|reflexivity].
  destruct (conn_txn c) as [db|]; [|reflexivity]. simpl.
  f_equal. exact (framed_set_txn h None (set_store (Some db) w)).
Qed.

Lemma natural_rollback : natural fr cs rollback.
Proof.
  intros h w. unfold rollback. rewrite framed_lookup.
  destruct (connections w !! h) as [c|]; [|reflexivity]. simpl.
  destruct (conn_open c); [|reflexivity]. simpl.
  f_equal. exact (framed_set_txn h None w).
Qed.

Lemma natural_with {A} (body : handle -> M A) :
  natural fr cs body -> natural fr cs (fun h => with_ h (body h)).
Proof.
  intros Hb h w. unfold with_. rewrite Hb.
  destruct (body h w) as [|e w'|a w']; [reflexivity| |].
  - apply (natural_bind rollback (fun _ _ => raise e));
      [apply natural_rollback | intros; apply natural_raise].
  - apply (natural_bind commit (fun _ _ => ret a));
      [apply natural_commit | intros; apply natural_ret].
Qed.

Lemma natural_execution_failed sql exc :
  natural fr cs (fun h => execution_failed hint sql h exc).
Proof.
  unfold execution_failed.
  apply (natural_bind
           (fun h => try_except (rollback h >> ret true) (fun _ => ret false))
           (fun (rolled_back : bool) _ =>
              if rolled_back
              then raise (DatabaseError
                            ("Execution failed on sql '" ++ sql ++ "': "
                             ++ str_exn exc ++ hint_after hint sql (str_exn exc)))
              else raise (DatabaseError
                            ("Execution failed on sql: " ++ sql ++ newline
                             ++ str_exn exc ++ newline ++ "unable to rollback"
                             ++ hint_after hint sql (str_exn exc))))).
  - apply (natural_try_except (fun h => rollback h >> ret true)
             (fun _ _ => ret false)); [|intros; apply natural_ret].
    apply (natural_bind rollback (fun _ _ => ret true));
      [apply natural_rollback | intros; apply natural_ret].
  - intros []; apply natural_raise.
Qed.

Lemma natural_read_sql_query sql :
  about_seed_tables sql = true ->
  natural fr cs (read_sql_query engine hint sql).
Proof.
  intros Hsql. unfold read_sql_query.
  apply (natural_bind
           (fun h => try_except (execute engine h sql [])
                       (execution_failed hint sql h))
           (fun cur _ =>
              match cur.1 with
              | [] => raise (TypeError "'NoneType' object is not iterable")
              | _ :: _ => ret {| df_columns := cur.1; df_rows := cur.2 |}
              end)).
  - apply (natural_try_except (fun h => execute engine h sql [])
             (fun exc h => execution_failed hint sql h exc));
      [apply natural_execute; exact Hsql | intros; apply natural_execution_failed].
  - intros cur. destruct (cur.1); [apply natural_raise | apply natural_ret].
Qed.

(** A store access in a framed world whose file is there. *)
Lemma natural_access {A} (f : handle -> M A) w :
  natural fr cs f -> file_exists w ->
  bind get_connection f (F w) = map_outcome F (bind get_connection f w).
Proof.
  intros Hf [db Hdb]. unfold bind, get_connection, sqlite3_connect.
  replace (length (connections (F w))) with (length cs + length (connections w))%nat
    by (simpl; rewrite length_app, length_fmap; reflexivity).
  rewrite <- Hf. f_equal.
  unfold framed, set_connections, set_store. simpl. rewrite Hdb. simpl.
  rewrite fmap_app, app_assoc. reflexivity.
Qed.

End Simulation.

(** ** A reset from any prior state *)

Section Reseed.

Local Notation "'engine'" := Sqlite.engine.

Lemma natural_getitem fr cs d k : natural fr cs (fun _ => getitem d k).
Proof. intros h w. unfold getitem. destruct (d !! k); reflexivity. Qed.

Lemma natural_collect fr cs {A} (ms : list (M A)) :
  Forall (fun m => natural fr cs (fun _ => m)) ms ->
  natural fr cs (fun _ => collect ms).
Proof.
  induction 1 as [|m r Hm Hr IH]; simpl.
  - apply natural_ret.
  - apply (natural_bind fr cs (fun _ => m)
             (fun a _ => let* l := collect r in ret (a :: l))); [exact Hm|].
    intros a.
    apply (natural_bind fr cs (fun _ => collect r) (fun l _ => ret (a :: l)));
      [exact IH | intros; apply natural_ret].
Qed.

Lemma natural_orders fr cs id_map : natural fr cs (fun _ => orders id_map).
Proof.
  unfold orders. apply natural_collect.
  repeat constructor; unfold order_tuple;
    apply (natural_bind fr cs (fun _ => getitem id_map _) (fun v _ => ret _));
    first [apply natural_getitem | intros; apply natural_ret].
Qed.

Lemma natural_reset_rest fr cs :
  outside fr "users" -> outside fr "orders" -> natural fr cs reset_rest.
Proof.
  intros Hu Ho. unfold reset_rest.
  apply (natural_bind fr cs (fun h => execute engine h create_users_sql [])
           (fun _ h => _)); [apply natural_execute; auto|intros _].
  apply (natural_bind fr cs (fun h => execute engine h create_orders_sql [])
           (fun _ h => _)); [apply natural_execute; auto|intros _].
  apply (natural_bind fr cs (fun h => executemany engine h _ users)
           (fun _ h => _)); [apply natural_executemany; auto|intros _].
  apply (natural_bind fr cs (fun h => execute engine h "SELECT id, name FROM users" [])
           (fun cur h => _)); [apply natural_execute; auto|intros cur].
  destruct (id_map_of _ _) as [id_map|]; [|apply natural_stuck].
  apply (natural_bind fr cs (fun _ => orders id_map) (fun l h => _));
    [apply natural_orders|intros l].
  apply (natural_bind fr cs (fun h => executemany engine h _ l) (fun _ h => _));
    [apply natural_executemany; auto | intros _; apply natural_commit; assumption].
Qed.

Lemma engine_drop db t :
  In t ["orders"; "users"] ->
  engine db ("DROP TABLE IF EXISTS " ++ t) [] = Sqlite.Done (Sqlite.drop_table db t) [] [] false.
Proof. intros [<-|[<-|[]]]; reflexivity. Qed.

(** Outside a transaction a DROP takes effect on the file at once. *)
Lemma execute_drop cs db i p t :
  In t ["orders"; "users"] ->
  execute engine (length cs) ("DROP TABLE IF EXISTS " ++ t) []
    {| store_file := Some db;
       connections := (cs ++ [new_connection])%list;
       sql_input := i; page := p |}
  = Returned ([], [])
      {| store_file := Some (Sqlite.drop_table db t);
         connections := (cs ++ [new_connection])%list;
         sql_input := i; page := p |}.
Proof.
  intros Ht. unfold execute. simpl connections. rewrite lookup_last.
  simpl. rewrite (engine_drop db t Ht). reflexivity.
Qed.

Lemma with_bind_returned {A B} h (m : M A) (k : A -> M B) w a w' :
  m w = Returned a w' -> with_ h (bind m k) w = with_ h (k a) w'.
Proof. intros H. unfold with_, bind. rewrite H. reflexivity. Qed.

Lemma outside_without_seed_tables db :
  outside (without_seed_tables db) "users" /\
  outside (without_seed_tables db) "orders".
Proof.
  unfold outside, without_seed_tables. simpl.
  repeat split; first [apply lookup_delete_eq
    | rewrite lookup_delete_ne by discriminate; apply lookup_delete_eq].
Qed.

Lemma dropped_is_frame db :
  Sqlite.drop_table (Sqlite.drop_table db "orders") "users"
  = with_frame (without_seed_tables db) Sqlite.empty_db.
Proof.
  unfold Sqlite.drop_table, with_frame, without_seed_tables. simpl.
  rewrite !(left_id_L ∅ (∪)). reflexivity.
Qed.

(** The seed tables beside the rest of a store: the store reseeded. *)
Lemma union_beside_seed {V} (m : gmap string V) (o u : V) k :
  (<["orders" := o]> (<["users" := u]> ∅) ∪ delete "users" (delete "orders" m)) !! k
  = <["orders" := o]> (<["users" := u]> m) !! k.
Proof.
  destruct (decide (k = "orders")) as [->|Ho].
  - rewrite (lookup_union_l' _ _ "orders"); rewrite !lookup_insert_eq; eauto.
  - destruct (decide (k = "users")) as [->|Hu].
    + rewrite (lookup_union_l' _ _ "users");
        rewrite lookup_insert_ne, !lookup_insert_eq by discriminate;
        rewrite ?lookup_insert_ne, ?lookup_insert_eq by discriminate; eauto.
    + rewrite lookup_union_r
        by (rewrite !lookup_insert_ne by congruence; apply lookup_empty).
      rewrite !lookup_delete_ne, !lookup_insert_ne by congruence. reflexivity.
Qed.

Lemma frame_seed_db db : with_frame (without_seed_tables db) seed_db = reseeded db.
Proof.
  unfold with_frame, without_seed_tables, seed_db, reseeded. simpl.
  f_equal; apply map_eq; intros k; apply union_beside_seed.
Qed.

(** On a store with neither table the rest of the reset seeds both. *)
Lemma reset_rest_empty i p :
  with_ 0 (reset_rest 0)
    {| store_file := Some Sqlite.empty_db;
       connections := [new_connection];
       sql_input := i; page := p |}
  = Returned tt
      {| store_file := Some seed_db;
         connections := [new_connection];
         sql_input := i; page := p |}.
Proof. vm_compute. reflexivity. Qed.

Lemma reset_db_any w : reset_db engine w = Returned tt (after_reset w).
Proof.
  destruct w as [file cs i p].
  set (db := default Sqlite.empty_db file).
  destruct (outside_without_seed_tables db) as [Hu Ho].
  unfold reset_db, get_connection, sqlite3_connect. unfold bind at 1.
  unfold set_connections, set_store. simpl. fold db.
  rewrite (with_bind_returned _ _ _ _ _ _
             (execute_drop cs db i p "orders" ltac:(simpl; auto))).
  rewrite (with_bind_returned _ _ _ _ _ _
             (execute_drop cs _ i p "users" ltac:(simpl; auto))).
  rewrite dropped_is_frame.
  change (with_ (length cs) (reset_rest (length cs))
            (framed (without_seed_tables db) cs
               {| store_file := Some Sqlite.empty_db;
                  connections := [new_connection];
                  sql_input := i; page := p |})
          = Returned tt (after_reset
               {| store_file := file; connections := cs;
                  sql_input := i; page := p |})).
  rewrite <- (Nat.add_0_r (length cs)).
  rewrite (natural_with _ cs reset_rest (natural_reset_rest _ cs Hu Ho) 0%nat).
  rewrite reset_rest_empty. simpl.
  unfold after_reset, framed, set_connections, set_store. simpl.
  rewrite frame_seed_db. reflexivity.
Qed.

(** A store that held nothing but the two tables holds exactly the seed
    data after the reset. *)
Lemma reseeded_only_seed db :
  without_seed_tables db = Sqlite.empty_db -> reseeded db = seed_db.
Proof.
  intros H. rewrite <- frame_seed_db, H.
  unfold with_frame, Sqlite.empty_db. simpl.
  rewrite !(right_id_L ∅ (∪)). reflexivity.
Qed.

End Reseed.

(** C1: whatever the store held before, after [reset_db] its [users] table
    is exactly the four seed accounts and its [orders] table exactly the
    seven seed orders, with the literal amounts, statuses and dates; Adarsh
    has exactly the orders 500 PAID 2026-01-10 and 999 PENDING 2026-01-11;
    nothing of the earlier content of the two tables is left. *)
Theorem reset_db_seed_data :
  forall w,
    exists db,
      reset_db Sqlite.engine w = Returned tt (after_reset w) /\
      store_file (after_reset w) = Some db /\
      Sqlite.db_tables db !! "users" = Some users_table /\
      Sqlite.db_tables db !! "orders" = Some orders_table /\
      length (rows_of db "users") = 4%nat /\
      length (rows_of db "orders") = 7%nat /\
      orders_of db "Adarsh" = [ order_row 1 1 500 "PAID" "2026-01-10";
                                order_row 2 1 999 "PENDING" "2026-01-11" ].
Proof.
  intros w. exists (reseeded (default Sqlite.empty_db (store_file w))).
  assert (forall db, Sqlite.db_tables (reseeded db) !! "users" = Some users_table) as Hu.
  { intros db. unfold reseeded. simpl.
    rewrite lookup_insert_ne by discriminate. apply lookup_insert_eq. }
  assert (forall db, Sqlite.db_tables (reseeded db) !! "orders" = Some orders_table) as Ho.
  { intros db. unfold reseeded. simpl. apply lookup_insert_eq. }
  split; [apply reset_db_any|]. split; [reflexivity|].
  split; [apply Hu|]. split; [apply Ho|].
  unfold orders_of, order_owner, owner_of, rows_of. rewrite Hu, Ho.
  repeat split.
Qed.

Example orders_of_example :
  orders_of seed_db "Pranjali" = [ order_row 3 2 1299 "PAID" "2026-01-11";
                                   order_row 6 2 1500 "PENDING" "2026-01-13" ].
Proof. reflexivity. Qed.

(** ** Reading the store *)

Section Reading.

Variable engine : Sqlite.database -> string -> list Sqlite.value -> Sqlite.reply.
Variable hint : string -> string -> string.

(** A statement that yields columns and leaves the store as it is, run
    outside a transaction, leaves the world as it is. *)
Lemma read_sql_query_reads cs db i p sql l ls rows :
  engine db sql [] = Sqlite.Done db (l :: ls) rows false ->
  read_sql_query engine hint sql (length cs)
    {| store_file := Some db;
       connections := (cs ++ [new_connection])%list;
       sql_input := i; page := p |}
  = Returned {| df_columns := l :: ls; df_rows := rows |}
      {| store_file := Some db;
         connections := (cs ++ [new_connection])%list;
         sql_input := i; page := p |}.
Proof.
  intros H. unfold read_sql_query, try_except, bind, execute.
  simpl connections. rewrite lookup_last. simpl. rewrite H. reflexivity.
Qed.

Lemma read_sql_query_raises cs db i p sql e :
  engine db sql [] = Sqlite.Fails e ->
  read_sql_query engine hint sql (length cs)
    {| store_file := Some db;
       connections := (cs ++ [new_connection])%list;
       sql_input := i; page := p |}
  = Raised (DatabaseError ("Execution failed on sql '" ++ sql ++ "': "
                           ++ Sqlite.message e
                           ++ hint_after hint sql (Sqlite.message e)))
      {| store_file := Some db;
         connections := (cs ++ [new_connection])%list;
         sql_input := i; page := p |}.
Proof.
  intros H. unfold read_sql_query, try_except, bind, execute.
  simpl connections. rewrite lookup_last. simpl. rewrite H.
  unfold execution_failed, try_except, bind, rollback, ret, raise, set_txn.
  simpl. rewrite lookup_last. simpl.
  rewrite insert_last. destruct e; reflexivity.
Qed.

Lemma with_returned {A} cs db i p (body : M A) a :
  let w := {| store_file := Some db;
              connections := (cs ++ [new_connection])%list;
              sql_input := i; page := p |} in
  body w = Returned a w -> with_ (length cs) body w = Returned a w.
Proof.
  intros w H. unfold with_. rewrite H. unfold bind, commit, ret.
  simpl connections. rewrite lookup_last. reflexivity.
Qed.

Lemma with_raised {A} cs db i p (body : M A) e :
  let w := {| store_file := Some db;
              connections := (cs ++ [new_connection])%list;
              sql_input := i; page := p |} in
  body w = Raised e w -> with_ (length cs) body w = Raised e w.
Proof.
  intros w H. unfold with_. rewrite H. unfold bind, rollback, raise, set_txn.
  simpl connections. rewrite lookup_last. simpl. rewrite ?lookup_last. simpl.
  rewrite insert_last. reflexivity.
Qed.

Lemma run_query_reads w q l ls rows :
  engine (store_of w) q [] = Sqlite.Done (store_of w) (l :: ls) rows false ->
  run_query engine hint q w
  = Returned {| df_columns := l :: ls; df_rows := rows |} (connected w).
Proof.
  intros H. destruct w as [file cs i p].
  unfold run_query, get_connection, sqlite3_connect. unfold bind at 1.
  apply (with_returned cs _ i p). apply read_sql_query_reads. exact H.
Qed.

Lemma run_query_raises w q e :
  engine (store_of w) q [] = Sqlite.Fails e ->
  run_query engine hint q w
  = Raised (DatabaseError ("Execution failed on sql '" ++ q ++ "': "
                           ++ Sqlite.message e
                           ++ hint_after hint q (Sqlite.message e)))
      (connected w).
Proof.
  intros H. destruct w as [file cs i p].
  unfold run_query, get_connection, sqlite3_connect. unfold bind at 1.
  apply (with_raised cs _ i p). apply read_sql_query_raises. exact H.
Qed.

End Reading.

(** ** The schema viewer and the exercises on the seed data *)

Section Viewer.

Variable hint : string -> string -> string.
Local Notation "'engine'" := Sqlite.engine.

Lemma engine_table_info db t :
  In t ["users"; "orders"] ->
  engine db ("PRAGMA table_info(" ++ t ++ ");") []
  = Sqlite.Done db Sqlite.table_info_columns (Sqlite.table_info db t) false.
Proof. intros [<-|[<-|[]]]; reflexivity. Qed.

Lemma mapM_imap {A B C} (g : B -> option C) (f : nat -> A -> B) (h : A -> C) l :
  (forall i d, g (f i d) = Some (h d)) -> mapM g (imap f l) = Some (h <$> l).
Proof.
  revert f. induction l as [|x l IH]; intros f H; [reflexivity|].
  simpl. rewrite H. simpl. rewrite IH by (intros i d; apply H). reflexivity.
Qed.

(** Name and type are picked out of what PRAGMA table_info answers. *)
Lemma getitem_table_info db t :
  In t ["users"; "orders"] ->
  df_getitem {| df_columns := Sqlite.table_info_columns;
                df_rows := Sqlite.table_info db t |} ["name"; "type"]
  = Some (describe db t).
Proof.
  intros Ht. unfold df_getitem, describe. simpl df_columns. simpl df_rows.
  change (mapM _ ["name"; "type"]) with (Some [1%nat; 2%nat]). simpl.
  unfold Sqlite.table_info, Sqlite.lookup_table.
  replace (Sqlite.fold_name t) with t
    by (destruct Ht as [<-|[<-|[]]]; reflexivity).
  destruct (Sqlite.db_tables db !! t) as [tbl|]; [|reflexivity].
  rewrite (mapM_imap _ _
             (fun d => [Sqlite.Text (Sqlite.col_name d);
                        Sqlite.Text (Sqlite.col_type d)]))
    by reflexivity.
  reflexivity.
Qed.

(** The summary is read off the store as it is at the time of the call. *)
Lemma get_schema_summary_live w :
  get_schema_summary engine hint w
  = Returned [ ("users", describe (store_of w) "users");
               ("orders", describe (store_of w) "orders") ] (connected w).
Proof.
  destruct w as [file cs i p].
  unfold get_schema_summary, get_connection, sqlite3_connect. unfold bind at 1.
  apply (with_returned cs _ i p). simpl schema_loop. unfold bind.
  rewrite (read_sql_query_reads engine hint cs _ i p _ "cid" _ _
             (engine_table_info _ "users" ltac:(simpl; auto))).
  rewrite getitem_table_info by (simpl; auto).
  rewrite (read_sql_query_reads engine hint cs _ i p _ "cid" _ _
             (engine_table_info _ "orders" ltac:(simpl; auto))).
  rewrite getitem_table_info by (simpl; auto).
  reflexivity.
Qed.

Lemma reseeded_users db : Sqlite.db_tables (reseeded db) !! "users" = Some users_table.
Proof.
  unfold reseeded. simpl.
  rewrite lookup_insert_ne by discriminate. apply lookup_insert_eq.
Qed.

Lemma reseeded_orders db : Sqlite.db_tables (reseeded db) !! "orders" = Some orders_table.
Proof. unfold reseeded. simpl. apply lookup_insert_eq. Qed.

Lemma engine_count_paid db :
  engine (reseeded db) count_paid_sql []
  = Sqlite.Done (reseeded db) ["total_paid"] [[Sqlite.Int 4]] false.
Proof.
  unfold Sqlite.engine.
  change (Sqlite.parse count_paid_sql)
    with (Sqlite.Stmt (Sqlite.Select (Sqlite.SelCount "total_paid") "orders"
                         (Some ("status", "PAID")))).
  unfold Sqlite.exec, Sqlite.select_rows, Sqlite.lookup_table.
  change (Sqlite.fold_name "orders") with "orders".
  rewrite reseeded_orders. reflexivity.
Qed.

End Viewer.

(** C7: after a reset the schema viewer lists for [users] the columns id,
    name, email, city and for [orders] id, user_id, amount, status,
    created_at, in declaration order with their declared types; the listing
    is read from the store at the time of the call, whatever tables it
    holds. *)
Theorem schema_after_reset :
  forall hint w,
    bind (reset_db Sqlite.engine) (fun _ => get_schema_summary Sqlite.engine hint) w
    = Returned seed_summary (connected (after_reset w)) /\
    get_schema_summary Sqlite.engine hint w
    = Returned [ ("users", describe (store_of w) "users");
                 ("orders", describe (store_of w) "orders") ] (connected w).
Proof.
  intros hint w. split; [|apply get_schema_summary_live].
  unfold bind. rewrite reset_db_any, get_schema_summary_live.
  unfold describe, store_of, after_reset. simpl store_file. simpl default.
  rewrite reseeded_users, reseeded_orders. reflexivity.
Qed.

(** C8: after a reset the count of PAID orders is one row with total_paid
    4; the four PAID orders among the seven are Adarsh's 500, Pranjali's
    1299, Amit's 799 and Rahul's 1800. *)
Theorem paid_orders_after_reset :
  forall hint w,
    bind (reset_db Sqlite.engine)
         (fun _ => run_query Sqlite.engine hint count_paid_sql) w
    = Returned {| df_columns := ["total_paid"]; df_rows := [[Sqlite.Int 4]] |}
        (connected (after_reset w)) /\
    orders_with_status (store_of (after_reset w)) "PAID"
    = [ (Some "Adarsh", Sqlite.Real (inject_Z 500));
        (Some "Pranjali", Sqlite.Real (inject_Z 1299));
        (Some "Amit", Sqlite.Real (inject_Z 799));
        (Some "Rahul", Sqlite.Real (inject_Z 1800)) ] /\
    length (rows_of (store_of (after_reset w)) "orders") = 7%nat.
Proof.
  intros hint w. split.
  - unfold bind. rewrite reset_db_any.
    apply run_query_reads. apply engine_count_paid.
  - unfold orders_with_status, order_owner, owner_of, rows_of, store_of, after_reset.
    simpl store_file. simpl default.
    rewrite reseeded_users, reseeded_orders. split; reflexivity.
Qed.

Lemma hint_after_spaced hint q m s :
  has_space (Py.strip q) = true -> s ++ hint_after hint q m = s.
Proof.
  intros H. unfold hint_after. rewrite H.
  induction s as [|c s IH]; [reflexivity|].
  change (String c s ++ "") with (String c (s ++ "")). rewrite IH. reflexivity.
Qed.

(** C5: a query on which the engine fails makes [run_query] raise pandas's
    error, whose text carries the engine's message as the engine gave it:
    the text is "Execution failed on sql '<query>': ", then the message,
    then what pandas adds after it, which is nothing when the query has a
    space inside it; when the query came through the gate, the run branch
    renders that text with nothing changed, returns normally and leaves the
    input as it was. *)
Theorem engine_error_is_shown :
  forall engine hint w q e,
    engine (store_of w) q [] = Sqlite.Fails e ->
    let shown := "Execution failed on sql '" ++ q ++ "': " ++ Sqlite.message e
                 ++ hint_after hint q (Sqlite.message e) in
    run_query engine hint q w = Raised (DatabaseError shown) (connected w) /\
    (has_space (Py.strip q) = true ->
     shown = "Execution failed on sql '" ++ q ++ "': " ++ Sqlite.message e) /\
    (forall raw,
       Spec.authorize_all raw = Spec.Approved q ->
       run_clicked_branch engine hint (typed raw w)
       = Returned tt (render (st_error shown) (connected (typed raw w))) /\
       sql_input (render (st_error shown) (connected (typed raw w))) = raw).
Proof.
  intros engine hint w q e H shown.
  split; [apply run_query_raises; exact H|]. split.
  - intros Hq. unfold shown.
    rewrite (hint_after_spaced hint q _ (Sqlite.message e) Hq). reflexivity.
  - intros raw Hraw. split; [|reflexivity].
    rewrite run_clicked_branch_gate. simpl sql_input. rewrite Hraw.
    unfold respond, try_except, bind.
    rewrite (run_query_raises engine hint (typed raw w) q e H). reflexivity.
Qed.

Lemma init_db_once_witness :
  init_db Sqlite.engine fresh = reset_db Sqlite.engine fresh /\
  init_db Sqlite.engine (after_reset fresh) = Returned tt (after_reset fresh).
Proof.
  split.
  - exact (proj1 (init_db_once Sqlite.engine fresh) eq_refl).
  - exact (proj1 (proj2 (init_db_once Sqlite.engine (after_reset fresh)))
             (ex_intro _ _ eq_refl)).
Defined.

Lemma engine_error_is_shown_witness :
  run_query Sqlite.engine no_hint "SELEC * FROM users" fresh
  = Raised (DatabaseError
              ("Execution failed on sql 'SELEC * FROM users': near "
               ++ Sqlite.dquote ++ "SELEC" ++ Sqlite.dquote ++ ": syntax error"))
      (connected fresh) /\
  run_clicked_branch Sqlite.engine no_hint (typed " selects * FROM users; " fresh)
  = Returned tt
      (render (st_error
                 ("Execution failed on sql 'selects * FROM users': near "
                  ++ Sqlite.dquote ++ "selects" ++ Sqlite.dquote
                  ++ ": syntax error"))
         (connected (typed " selects * FROM users; " fresh))).
Proof.
  split.
  - exact (proj1 (engine_error_is_shown Sqlite.engine no_hint fresh "SELEC * FROM users"
                    (Sqlite.OperationalError
                       ("near " ++ Sqlite.dquote ++ "SELEC" ++ Sqlite.dquote
                        ++ ": syntax error"))
                    eq_refl)).
  - exact (proj1 (proj2 (proj2 (engine_error_is_shown Sqlite.engine no_hint fresh
                           "selects * FROM users"
                           (Sqlite.OperationalError
                              ("near " ++ Sqlite.dquote ++ "selects"
                               ++ Sqlite.dquote ++ ": syntax error"))
                           eq_refl))
                    " selects * FROM users; " eq_refl)).
Defined.

(** An approved query the engine refuses, from the input field to the
    page. *)
Example unknown_table_is_shown :
  forall hint,
  run_clicked_branch Sqlite.engine hint (typed "select * from orders;" fresh)
  = Returned tt
      (render (st_error "Execution failed on sql 'select * from orders': no such table: orders")
         (connected (typed "select * from orders;" fresh))).
Proof. intros hint. vm_compute. reflexivity. Qed.

Lemma engine_no_such_table db t :
  In t ["users"; "orders"] ->
  Sqlite.db_tables db !! t = None ->
  Sqlite.engine db ("SELECT * FROM " ++ t) []
  = Sqlite.Fails (Sqlite.OperationalError ("no such table: " ++ t)).
Proof.
  intros Ht H. unfold Sqlite.engine.
  destruct Ht as [<-|[<-|[]]].
  - change (Sqlite.parse ("SELECT * FROM " ++ "users"))
      with (Sqlite.Stmt (Sqlite.Select Sqlite.SelStar "users" None)).
    unfold Sqlite.exec, Sqlite.select_rows, Sqlite.lookup_table.
    change (Sqlite.fold_name "users") with "users". rewrite H. reflexivity.
  - change (Sqlite.parse ("SELECT * FROM " ++ "orders"))
      with (Sqlite.Stmt (Sqlite.Select Sqlite.SelStar "orders" None)).
    unfold Sqlite.exec, Sqlite.select_rows, Sqlite.lookup_table.
    change (Sqlite.fold_name "orders") with "orders". rewrite H. reflexivity.
Qed.

(** C10: [init_db] looks at nothing but whether the file exists: on a file
    that is there and holds neither table it does nothing, whatever the
    engine, so a query on either table then fails with the engine's
    no-such-table error and the store stays as it was. *)
Theorem existing_file_is_not_repaired :
  forall hint w db t,
    store_file w = Some db ->
    Sqlite.db_tables db !! "users" = None ->
    Sqlite.db_tables db !! "orders" = None ->
    In t ["users"; "orders"] ->
    (forall engine, init_db engine w = Returned tt w) /\
    run_query Sqlite.engine hint ("SELECT * FROM " ++ t) w
    = Raised (DatabaseError ("Execution failed on sql 'SELECT * FROM " ++ t
                             ++ "': no such table: " ++ t)) (connected w) /\
    store_file (connected w) = Some db.
Proof.
  intros hint w db t Hf Hu Ho Ht. split; [|split].
  - intros engine. apply init_db_present. unfold file_exists. rewrite Hf. eauto.
  - rewrite (run_query_raises Sqlite.engine hint w _
               (Sqlite.OperationalError ("no such table: " ++ t))).
    + destruct Ht as [<-|[<-|[]]]; reflexivity.
    + unfold store_of. rewrite Hf. simpl. apply engine_no_such_table; [exact Ht|].
      destruct Ht as [<-|[<-|[]]]; assumption.
  - simpl. rewrite Hf. reflexivity.
Qed.

Lemma existing_file_is_not_repaired_witness :
  init_db Sqlite.engine empty_file = Returned tt empty_file /\
  run_query Sqlite.engine no_hint "SELECT * FROM users" empty_file
  = Raised (DatabaseError
              "Execution failed on sql 'SELECT * FROM users': no such table: users")
      (connected empty_file).
Proof.
  pose (T := existing_file_is_not_repaired no_hint empty_file Sqlite.empty_db "users"
               eq_refl eq_refl eq_refl (or_introl eq_refl)).
  exact (conj (proj1 T Sqlite.engine) (proj1 (proj2 T))).
Defined.

(** C4 (the code at work): whatever the engine, the query and the world,
    each store access returns or raises with the connection it made still
    open, only its transaction ended; so it is after a query on the seeded
    store, and after one the engine refuses. *)
Theorem connection_outlives_call :
  forall engine hint q w,
    match run_query engine hint q w with
    | Stuck => True
    | Raised _ w' | Returned _ w' => left_open (connections w) w'
    end /\
    match reset_db engine w with
    | Stuck => True
    | Raised _ w' | Returned _ w' => left_open (connections w) w'
    end /\
    match get_schema_summary engine hint w with
    | Stuck => True
    | Raised _ w' | Returned _ w' => left_open (connections w) w'
    end /\
    (exists df w',
       run_query Sqlite.engine hint "SELECT * FROM users" (after_reset fresh)
       = Returned df w' /\
       connections w' = [ new_connection;
                          new_connection ]) /\
    (exists e w',
       run_query Sqlite.engine hint "SELEC * FROM users" (after_reset fresh)
       = Raised e w' /\
       connections w' = [ new_connection;
                          new_connection ]).
Proof.
  intros engine hint q w.
  split; [apply run_query_leaves_open|].
  split; [apply reset_db_leaves_open|].
  split; [apply get_schema_summary_leaves_open|].
  split.
  - pose proof (run_query_leaves_open Sqlite.engine hint "SELECT * FROM users"
                  (after_reset fresh)) as H.
    destruct (run_query Sqlite.engine hint "SELECT * FROM users" (after_reset fresh))
      as [|e w'|df w'] eqn:E; [vm_compute in E; discriminate E
                              | vm_compute in E; discriminate E |].
    exists df, w'. split; [reflexivity | apply H].
  - pose proof (run_query_leaves_open Sqlite.engine hint "SELEC * FROM users"
                  (after_reset fresh)) as H.
    destruct (run_query Sqlite.engine hint "SELEC * FROM users" (after_reset fresh))
      as [|e w'|df w'] eqn:E; [vm_compute in E; discriminate E |
                              | vm_compute in E; discriminate E].
    exists e, w'. split; [reflexivity | apply H].
Qed.

(** * More of the script *)

(** ** What the gate cuts off a text *)

Section Cutting.

Lemma all_chars_app p a b :
  all_chars p (a ++ b) = all_chars p a && all_chars p b.
Proof.
  induction a as [|c a IH]; [reflexivity|].
  change (all_chars p (String c a ++ b)) with (p c && all_chars p (a ++ b)).
  rewrite IH. apply andb_assoc.
Qed.

Lemma all_chars_weaken (p q : ascii -> bool) s :
  (forall c, p c = true -> q c = true) ->
  all_chars p s = true -> all_chars q s = true.
Proof.
  intros Hpq. induction s as [|c r IH]; simpl; [reflexivity|].
  intros H. apply andb_prop in H as [Hc Hr].
  rewrite (Hpq c Hc), (IH Hr). reflexivity.
Qed.

Lemma append_cons x (a b : string) : String x a ++ b = String x (a ++ b).
Proof. reflexivity. Qed.

Lemma append_assoc (a b c : string) : (a ++ b) ++ c = a ++ b ++ c.
Proof.
  induction a as [|x a IH]; [reflexivity|].
  rewrite !append_cons, IH. reflexivity.
Qed.

Lemma append_empty_r (a : string) : a ++ "" = a.
Proof.
  induction a as [|x a IH]; [reflexivity|]. rewrite append_cons, IH. reflexivity.
Qed.

Lemma length_append (a b : string) :
  String.length (a ++ b) = (String.length a + String.length b)%nat.
Proof.
  induction a as [|x a IH]; [reflexivity|].
  rewrite append_cons. simpl. rewrite IH. reflexivity.
Qed.

(** What [lstrip_by] drops is a prefix of characters to strip. *)
Lemma lstrip_by_split p s :
  exists pre, s = pre ++ Py.lstrip_by p s /\ all_chars p pre = true.
Proof.
  induction s as [|c r [pre [Hs Hp]]].
  - exists "". split; reflexivity.
  - simpl. destruct (p c) eqn:Hc.
    + exists (String c pre). rewrite append_cons, <- Hs. simpl. rewrite Hc, Hp.
      split; reflexivity.
    + exists "". split; reflexivity.
Qed.

(** What [rstrip_by] drops is a suffix of characters to strip. *)
Lemma rstrip_by_split p s :
  exists post, s = Py.rstrip_by p s ++ post /\ all_chars p post = true.
Proof.
  induction s as [|c r [post [Hs Hp]]].
  - exists "". split; reflexivity.
  - simpl. destruct (Py.rstrip_by p r) as [|d r'] eqn:E.
    + destruct (p c) eqn:Hc.
      * exists (String c post). simpl. rewrite Hc, Hp.
        split; [|reflexivity].
        change ("" ++ String c post) with (String c ("" ++ post)).
        rewrite <- Hs. reflexivity.
      * exists post. rewrite append_cons. split; [f_equal; exact Hs | exact Hp].
    + exists post. rewrite append_cons. split; [f_equal; exact Hs | exact Hp].
Qed.

(** A character that is not to be stripped shields all that is before it. *)
Lemma rstrip_by_keep p a x b :
  p x = false ->
  Py.rstrip_by p (a ++ String x b) = a ++ String x (Py.rstrip_by p b).
Proof.
  intros Hx. induction a as [|c a IH].
  - change ("" ++ String x b) with (String x b). simpl.
    rewrite Hx. destruct (Py.rstrip_by p b); reflexivity.
  - rewrite !append_cons. simpl. rewrite IH.
    destruct a; reflexivity.
Qed.

Lemma rstrip_by_idem p s : Py.rstrip_by p (Py.rstrip_by p s) = Py.rstrip_by p s.
Proof.
  induction s as [|c r IH]; simpl; [reflexivity|].
  destruct (Py.rstrip_by p r) as [|d r'] eqn:E.
  - destruct (p c) eqn:Hc; simpl; [reflexivity | rewrite Hc; reflexivity].
  - simpl in *. rewrite IH. reflexivity.
Qed.

Lemma lstrip_by_fixed p s : Py.lstrip_by p (Py.lstrip_by p s) = Py.lstrip_by p s.
Proof.
  induction s as [|c r IH]; simpl; [reflexivity|].
  destruct (p c) eqn:Hc; [exact IH | simpl; rewrite Hc; reflexivity].
Qed.

(** Stripping the far end leaves the near end as it was. *)
Lemma lstrip_rstrip_fixed p s :
  Py.lstrip_by p s = s -> Py.lstrip_by p (Py.rstrip_by p s) = Py.rstrip_by p s.
Proof.
  destruct s as [|c r]; [reflexivity|]. simpl.
  destruct (p c) eqn:Hc.
  - intros H. exfalso.
    destruct (lstrip_by_split p r) as [pre [Hr _]].
    assert (String.length (String c r) = String.length (Py.lstrip_by p r)) as L
      by (rewrite H; reflexivity).
    simpl in L. rewrite Hr in L at 1. rewrite length_append in L. lia.
  - intros _. destruct (Py.rstrip_by p r); simpl; rewrite Hc; reflexivity.
Qed.

Lemma strip_clean s : clean_ends Py.isspace (Py.strip s).
Proof.
  unfold clean_ends, Py.strip. split.
  - apply lstrip_rstrip_fixed, lstrip_by_fixed.
  - apply rstrip_by_idem.
Qed.

Lemma strip_idem s : Py.strip (Py.strip s) = Py.strip s.
Proof.
  destruct (strip_clean s) as [Hl Hr].
  unfold Py.strip at 1. rewrite Hl. exact Hr.
Qed.

Lemma strip_split s :
  exists pre post,
    s = pre ++ Py.strip s ++ post /\
    all_chars Py.isspace pre = true /\ all_chars Py.isspace post = true.
Proof.
  destruct (lstrip_by_split Py.isspace s) as [pre [Hs Hp]].
  destruct (rstrip_by_split Py.isspace (Py.lstrip_by Py.isspace s)) as [post [Hs' Hp']].
  exists pre, post. split; [|split; assumption].
  unfold Py.strip. rewrite <- Hs'. exact Hs.
Qed.

(** The text the run branch tests, and runs if it is approved, is a piece
    of the input: whitespace is cut from the front, whitespace and
    semicolons from the back, nothing inside is touched. *)
Lemma gate_text_split q :
  exists pre post,
    q = pre ++ gate_text q ++ post /\
    all_chars Py.isspace pre = true /\ all_chars strippable post = true.
Proof.
  unfold gate_text.
  destruct (strip_split q) as [pre1 [post1 [H1 [Hp1 Hq1]]]].
  destruct (rstrip_by_split (fun c => Py.mem_char c ";") (Py.strip q))
    as [semis [H2 Hs]].
  fold (Py.rstrip ";" (Py.strip q)) in H2.
  destruct (strip_split (Py.rstrip ";" (Py.strip q)))
    as [pre3 [post3 [H3 [Hp3 Hq3]]]].
  exists (pre1 ++ pre3), (post3 ++ semis ++ post1).
  split; [|split].
  - rewrite H1 at 1. rewrite H2 at 1. rewrite H3 at 1.
    rewrite !append_assoc. reflexivity.
  - rewrite all_chars_app, Hp1, Hp3. reflexivity.
  - rewrite !all_chars_app.
    rewrite (all_chars_weaken Py.isspace strippable post3), 
      (all_chars_weaken Py.isspace strippable post1); try assumption;
      try (intros c Hc; unfold strippable; rewrite Hc; reflexivity).
    rewrite (all_chars_weaken (fun c => Py.mem_char c ";") strippable semis);
      [reflexivity | | exact Hs].
    intros c Hc. unfold strippable. simpl in Hc. rewrite orb_false_r in Hc.
    rewrite Hc. apply orb_true_r.
Qed.

End Cutting.

(** ** What the run button shows *)

Section RunPanel.

Variable engine : Sqlite.database -> string -> list Sqlite.value -> Sqlite.reply.
Variable hint : string -> string -> string.

(** The branch, read as three cases on the typed text. *)
Lemma run_clicked_branch_text w :
  run_clicked_branch engine hint w =
  if Py.is_empty (Py.strip (sql_input w)) then
    Returned tt (render (st_warning empty_query_warning) w)
  else if Py.startswith (Py.lower (gate_text (sql_input w))) "select" then
    respond engine hint (Spec.Approved (gate_text (sql_input w))) w
  else Returned tt (render (st_error only_select_error) w).
Proof.
  unfold run_clicked_branch, bind, session_sql_input, gate_text.
  destruct (Py.is_empty _); [reflexivity|].
  destruct (Py.startswith _ _); reflexivity.
Qed.

Lemma inert_stable h I : inert I -> stable h I.
Proof.
  intros [Hs Hc]. split.
  - intros t w H. unfold set_txn. destruct (connections w !! h); [apply Hc|]; exact H.
  - intros db w H _. apply Hs. exact H.
Qed.

Lemma keeps_commit_inert h I : inert I -> keeps I (commit h).
Proof.
  intros HI w H. unfold commit.
  destruct (connections w !! h) as [c|]; [|exact Logic.I].
  destruct (conn_open c); [|exact H].
  destruct (conn_txn c) as [db|]; [|exact H].
  apply (inert_stable h I HI). apply HI. exact H.
Qed.

Lemma keeps_with_inert {A} h I (body : M A) :
  inert I -> keeps I body -> keeps I (with_ h body).
Proof.
  intros HI Hb w H. unfold with_. specialize (Hb w H).
  destruct (body w) as [|e w'|a w']; [exact Logic.I| |].
  - apply (keeps_bind I (rollback h) (fun _ => raise e));
      [apply keeps_rollback, inert_stable; exact HI
      | intros; apply keeps_raise | exact Hb].
  - apply (keeps_bind I (commit h) (fun _ => ret a));
      [apply keeps_commit_inert; exact HI | intros; apply keeps_ret | exact Hb].
Qed.

Lemma keeps_read_sql_query_stable h I sql :
  stable h I -> keeps I (read_sql_query engine hint sql h).
Proof.
  intros HI. unfold read_sql_query. apply keeps_bind.
  - apply keeps_try_except; [apply keeps_execute; exact HI|].
    intros e. unfold execution_failed. apply keeps_bind.
    + apply keeps_try_except; [|intros; apply keeps_ret].
      apply keeps_bind; [apply keeps_rollback; exact HI | intros; apply keeps_ret].
    + intros []; apply keeps_raise.
  - intros cur. destruct (fst cur); [apply keeps_raise | apply keeps_ret].
Qed.

Lemma keeps_get_connection I : inert I -> keeps I get_connection.
Proof. intros [Hs Hc] w H. simpl. apply Hc, Hs, H. Qed.

Lemma keeps_run_query_inert I q : inert I -> keeps I (run_query engine hint q).
Proof.
  intros HI. unfold run_query. apply keeps_bind; [apply keeps_get_connection; exact HI|].
  intros conn. apply keeps_with_inert; [exact HI|].
  apply keeps_read_sql_query_stable, inert_stable, HI.
Qed.

Lemma inert_page_input p i : inert (fun w => page w = p /\ sql_input w = i).
Proof. split; intros ? w H; exact H. Qed.

(** An approved text never makes the branch raise: it ends with an error
    text or with a table and its row count, the input as it was. *)
Lemma respond_approved_page t w :
  match respond engine hint (Spec.Approved t) w with
  | Stuck => True
  | Raised _ _ => False
  | Returned _ w' =>
      sql_input w' = sql_input w /\
      ((exists msg, page w' = (page w ++ [st_error msg])%list) \/
       (exists df, page w' = (page w ++ [st_dataframe df;
                                         st_success (row_count_message df)])%list))
  end.
Proof.
  pose proof (keeps_run_query_inert _ t (inert_page_input (page w) (sql_input w))
                w (conj eq_refl eq_refl)) as H.
  unfold respond, try_except, bind.
  destruct (run_query engine hint t w) as [|e w1|df w1]; [exact Logic.I| |];
    destruct H as [Hp Hi]; simpl; rewrite Hp, Hi.
  - split; [reflexivity|]. left. eexists. reflexivity.
  - split; [reflexivity|]. right. exists df. rewrite <- app_assoc. reflexivity.
Qed.

(** What [run_query] comes to when the engine carried the statement out:
    the frame, or the TypeError of a statement without columns, which undoes
    what a statement that changes rows did. *)
Lemma run_query_done w q db' d rows dml :
  engine (store_of w) q [] = Sqlite.Done db' d rows dml ->
  run_query engine hint q w
  = match d with
    | [] => Raised (TypeError "'NoneType' object is not iterable")
              (if dml then connected w else set_store (Some db') (connected w))
    | _ :: _ => Returned {| df_columns := d; df_rows := rows |}
                  (set_store (Some db') (connected w))
    end.
Proof.
  intros E. destruct w as [file cs i p]. unfold store_of in E. simpl in E.
  unfold run_query, get_connection, sqlite3_connect. unfold bind at 1.
  unfold with_, read_sql_query, try_except, bind, execute.
  simpl connections. rewrite lookup_last. simpl. rewrite E.
  destruct dml, d as [|l ls]; simpl;
    unfold bind, commit, rollback, raise, ret, set_txn, set_store,
      set_connections, connected; simpl;
    rewrite ?lookup_last; simpl; rewrite ?insert_last; simpl;
    rewrite ?lookup_last; simpl; rewrite ?insert_last; reflexivity.
Qed.

(** With an answer from the engine the approved text brings the branch to
    its end. *)
Lemma respond_answered t w :
  engine (store_of w) t [] <> Sqlite.Unmodelled ->
  exists w', respond engine hint (Spec.Approved t) w = Returned tt w'.
Proof.
  intros H. unfold respond, try_except, bind.
  destruct (engine (store_of w) t []) as [|e|db' d rows dml] eqn:E;
    [congruence| |].
  - rewrite (run_query_raises engine hint w t e E). eexists. reflexivity.
  - rewrite (run_query_done w t db' d rows dml E).
    destruct d; eexists; reflexivity.
Qed.

End RunPanel.

Lemma is_empty_strip q : Py.is_empty (Py.strip q) = all_chars Py.isspace q.
Proof.
  destruct (all_chars Py.isspace q) eqn:A.
  - assert (Py.lstrip_by Py.isspace q = "") as L.
    { induction q as [|c r IH]; [reflexivity|]. simpl in *.
      apply andb_prop in A as [Hc Hr]. rewrite Hc. apply IH, Hr. }
    unfold Py.strip. rewrite L. reflexivity.
  - destruct (Py.strip q) eqn:E; [|reflexivity].
    destruct (strip_split q) as [pre [post [Hq [Hp Hpost]]]].
    rewrite E in Hq. rewrite Hq, !all_chars_app, Hp, Hpost in A. discriminate A.
Qed.

Lemma same_letter_kept k c :
  In k (Spec.chars "select") -> Spec.same_letter k c = true ->
  strippable c = false.
Proof.
  intros Hk. simpl in Hk.
  destruct Hk as [<-|[<-|[<-|[<-|[<-|[<-|[]]]]]]];
    destruct c as [[] [] [] [] [] [] [] []]; vm_compute; congruence.
Qed.

(** X1: whenever the engine has an answer to the text the gate hands on,
    the run branch comes to its end without raising: it returns, having
    added to the page the warning, or one error text, or a table followed by
    the count of its rows, and leaves the typed text as it was. *)
Theorem run_button_page :
  forall engine hint w,
    answers engine w (sql_input w) ->
    exists w' shown,
      run_clicked_branch engine hint w = Returned tt w' /\
      sql_input w' = sql_input w /\
      page w' = (page w ++ shown)%list /\ run_page shown.
Proof.
  intros engine hint w Ha. rewrite run_clicked_branch_text.
  destruct (Py.is_empty _).
  - eexists. eexists. split; [reflexivity|]. split; [reflexivity|].
    split; [reflexivity | constructor].
  - destruct (Py.startswith _ _) eqn:S.
    + destruct (respond_answered engine hint _ w (Ha S)) as [w' E].
      pose proof (respond_approved_page engine hint (gate_text (sql_input w)) w) as H.
      rewrite E in *. destruct H as [Hi [[msg Hp]|[df Hp]]];
        exists w'; eexists; (split; [reflexivity|]); (split; [exact Hi|]);
        (split; [exact Hp | constructor]).
    + eexists. eexists. split; [reflexivity|]. split; [reflexivity|].
      split; [reflexivity | constructor].
Qed.

Lemma run_button_page_witness :
  exists w' shown,
    run_clicked_branch Sqlite.engine no_hint
      (typed " select name from users where city='Goa'; " (after_reset fresh))
    = Returned tt w' /\
    sql_input w' = " select name from users where city='Goa'; " /\
    page w' = shown /\ run_page shown.
Proof.
  apply (run_button_page Sqlite.engine no_hint
           (typed " select name from users where city='Goa'; " (after_reset fresh))).
  intros _. vm_compute. discriminate.
Defined.

(** X2: whenever the engine has an answer to the text the gate hands on,
    the run branch returns, and what it has added to the page is the warning
    for an empty query exactly when the typed text is whitespace from end to
    end (the empty text included). *)
Theorem warning_iff_blank :
  forall engine hint q w,
    answers engine w q ->
    exists w',
      run_clicked_branch engine hint (typed q w) = Returned tt w' /\
      (page w' = (page w ++ [st_warning empty_query_warning])%list
       <-> all_chars Py.isspace q = true).
Proof.
  intros engine hint q w Ha. rewrite run_clicked_branch_text. simpl sql_input.
  rewrite is_empty_strip. destruct (all_chars Py.isspace q).
  - eexists. split; [reflexivity|]. split; reflexivity.
  - destruct (Py.startswith _ _) eqn:S.
    + destruct (respond_answered engine hint _ (typed q w) (Ha S)) as [w' E].
      pose proof (respond_approved_page engine hint (gate_text q) (typed q w)) as H.
      rewrite E in *. exists w'. split; [reflexivity|].
      split; [|discriminate]. intros Hw.
      destruct H as [_ [[msg Hp]|[df Hp]]]; simpl page in Hp; rewrite Hp in Hw;
        apply app_inv_head in Hw; discriminate Hw.
    + eexists. split; [reflexivity|]. split; [|discriminate].
      intros Hw. simpl page in Hw. apply app_inv_head in Hw. discriminate Hw.
Qed.

Lemma warning_iff_blank_witness :
  exists w',
    run_clicked_branch Sqlite.engine no_hint (typed "select * from users" fresh)
    = Returned tt w' /\
    (page w' = [st_warning empty_query_warning]
     <-> all_chars Py.isspace "select * from users" = true).
Proof.
  apply (warning_iff_blank Sqlite.engine no_hint "select * from users" fresh).
  intros _. vm_compute. discriminate.
Defined.

(** X3: the text the run branch approves and hands to [run_query] is a
    piece of the typed text: only whitespace is cut off in front of it, only
    whitespace and semicolons behind it, nothing inside it is changed, and it
    has no whitespace left at either end. *)
Theorem approved_text_is_a_piece :
  forall engine hint q w,
    (exists pre post,
       q = pre ++ gate_text q ++ post /\
       all_chars Py.isspace pre = true /\ all_chars strippable post = true) /\
    Py.strip (gate_text q) = gate_text q /\
    run_clicked_branch engine hint (typed q w) =
    (if Py.is_empty (Py.strip q) then
       Returned tt (render (st_warning empty_query_warning) (typed q w))
     else if Py.startswith (Py.lower (gate_text q)) "select" then
       respond engine hint (Spec.Approved (gate_text q)) (typed q w)
     else Returned tt (render (st_error only_select_error) (typed q w))).
Proof.
  intros engine hint q w. split; [apply gate_text_split|].
  split; [apply strip_idem|]. apply run_clicked_branch_text.
Qed.

(** X4: a text that begins with the word select, in any mix of upper and
    lower case, is always approved, whatever follows the word: further
    statements after a semicolon go to [run_query] with it, only trailing
    whitespace and semicolons are cut. *)
Theorem select_prefix_is_approved :
  forall engine hint w k rest,
    String.length k = 6%nat ->
    Py.startswith (Py.lower k) "select" = true ->
    exists rest' cut,
      rest = rest' ++ cut /\ all_chars strippable cut = true /\
      gate_text (k ++ rest) = k ++ rest' /\
      run_clicked_branch engine hint (typed (k ++ rest) w)
      = respond engine hint (Spec.Approved (k ++ rest')) (typed (k ++ rest) w).
Proof.
  intros engine hint w k rest Hlen Hk.
  rewrite startswith_lower in Hk by (intros x Hx; exact Hx).
  destruct k as [|c1 [|c2 [|c3 [|c4 [|c5 [|c6 [|c7 k]]]]]]]; try discriminate Hlen.
  simpl in Hk.
  apply andb_prop in Hk as [L1 Hk]. apply andb_prop in Hk as [L2 Hk].
  apply andb_prop in Hk as [L3 Hk]. apply andb_prop in Hk as [L4 Hk].
  apply andb_prop in Hk as [L5 Hk]. apply andb_prop in Hk as [L6 _].
  assert (strippable c1 = false) as H1
    by (apply (same_letter_kept "s"); [simpl; auto | exact L1]).
  assert (strippable c6 = false) as H6
    by (apply (same_letter_kept "t"); [simpl; auto 10 | exact L6]).
  unfold strippable in H1, H6.
  apply orb_false_elim in H1 as [W1 _]. apply orb_false_elim in H6 as [W6 S6].
  set (a := String c1 (String c2 (String c3 (String c4 (String c5 ""))))).
  set (r1 := Py.rstrip_by Py.isspace rest).
  set (r2 := Py.rstrip_by (fun c => Py.mem_char c ";") r1).
  set (r3 := Py.rstrip_by Py.isspace r2).
  assert (forall x, Py.strip (a ++ String c6 x) = a ++ String c6 (Py.rstrip_by Py.isspace x)) as Hstrip.
  { intros x. unfold Py.strip.
    change (Py.lstrip_by Py.isspace (a ++ String c6 x))
      with (if Py.isspace c1 then Py.lstrip_by Py.isspace
                                    (String c2 (String c3 (String c4 (String c5 (String c6 x)))))
            else a ++ String c6 x).
    rewrite W1. apply rstrip_by_keep. exact W6. }
  assert (gate_text (a ++ String c6 rest) = a ++ String c6 r3) as Hg.
  { unfold gate_text. rewrite Hstrip. fold r1.
    unfold Py.rstrip. rewrite rstrip_by_keep
      by (simpl; rewrite S6; reflexivity).
    fold r2. rewrite Hstrip. reflexivity. }
  destruct (rstrip_by_split Py.isspace rest) as [p1 [E1 A1]]. fold r1 in E1.
  destruct (rstrip_by_split (fun c => Py.mem_char c ";") r1) as [p2 [E2 A2]]. fold r2 in E2.
  destruct (rstrip_by_split Py.isspace r2) as [p3 [E3 A3]]. fold r3 in E3.
  exists r3, (p3 ++ p2 ++ p1).
  change (String c1 (String c2 (String c3 (String c4 (String c5 (String c6 ""))))) ++ rest)
    with (a ++ String c6 rest).
  change (String c1 (String c2 (String c3 (String c4 (String c5 (String c6 ""))))) ++ r3)
    with (a ++ String c6 r3).
  split; [|split; [|split; [exact Hg|]]].
  - rewrite E1 at 1. rewrite E2 at 1. rewrite E3 at 1.
    rewrite !append_assoc. reflexivity.
  - rewrite !all_chars_app.
    rewrite (all_chars_weaken Py.isspace strippable p3),
      (all_chars_weaken Py.isspace strippable p1); try assumption;
      try (intros c Hc; unfold strippable; rewrite Hc; reflexivity).
    rewrite (all_chars_weaken (fun c => Py.mem_char c ";") strippable p2);
      [reflexivity | | exact A2].
    intros c Hc. unfold strippable. simpl in Hc. rewrite orb_false_r in Hc.
    rewrite Hc. apply orb_true_r.
  - rewrite run_clicked_branch_text. simpl sql_input.
    rewrite Hg.
    replace (Py.is_empty (Py.strip (a ++ String c6 rest))) with false
      by (rewrite Hstrip; reflexivity).
    rewrite startswith_lower by (intros x Hx; exact Hx).
    replace (Spec.begins_with "select" (a ++ String c6 r3)) with true;
      [reflexivity|].
    change (Spec.begins_with "select" (a ++ String c6 r3))
      with (Spec.same_letter "s" c1 && (Spec.same_letter "e" c2 &&
            (Spec.same_letter "l" c3 && (Spec.same_letter "e" c4 &&
            (Spec.same_letter "c" c5 && (Spec.same_letter "t" c6 && true)))))).
    rewrite L1, L2, L3, L4, L5, L6. reflexivity.
Qed.

Lemma select_prefix_is_approved_witness :
  gate_text "SeLeCt 1; DROP TABLE users; " = "SeLeCt 1; DROP TABLE users" /\
  run_clicked_branch Sqlite.engine no_hint (typed "SeLeCt 1; DROP TABLE users; " fresh)
  = respond Sqlite.engine no_hint (Spec.Approved "SeLeCt 1; DROP TABLE users")
      (typed "SeLeCt 1; DROP TABLE users; " fresh).
Proof.
  destruct (select_prefix_is_approved Sqlite.engine no_hint fresh "SeLeCt"
              " 1; DROP TABLE users; " eq_refl eq_refl)
    as [rest' [cut [_ [_ [Hg Hr]]]]].
  split; [reflexivity|].
  change ("SeLeCt" ++ " 1; DROP TABLE users; ")
    with "SeLeCt 1; DROP TABLE users; " in Hg, Hr.
  rewrite <- Hg in Hr. exact Hr.
Defined.

(** ** Rows on the page *)

Section Rows.

Variable engine : Sqlite.database -> string -> list Sqlite.value -> Sqlite.reply.
Variable hint : string -> string -> string.

Lemma passes_not_blank q :
  Py.startswith (Py.lower (gate_text q)) "select" = true ->
  Py.is_empty (Py.strip q) = false.
Proof.
  unfold gate_text. destruct (Py.strip q); [discriminate | reflexivity].
Qed.

(** The approved text answered with rows: the table, then the count. *)
Lemma run_branch_rows w raw l ls rows :
  Py.startswith (Py.lower (gate_text raw)) "select" = true ->
  engine (store_of w) (gate_text raw) []
  = Sqlite.Done (store_of w) (l :: ls) rows false ->
  run_clicked_branch engine hint (typed raw w)
  = Returned tt
      (render (st_success ("Returned " ++ Py.str_of_nat (length rows)
                           ++ " rows " ++ check_mark))
         (render (st_dataframe {| df_columns := l :: ls; df_rows := rows |})
            (connected (typed raw w)))).
Proof.
  intros Hs He. rewrite run_clicked_branch_text. simpl sql_input.
  rewrite (passes_not_blank raw Hs), Hs.
  unfold respond, try_except, bind.
  rewrite (run_query_reads engine hint (typed raw w) _ l ls rows He). reflexivity.
Qed.

End Rows.

(** X5: when the engine answers the approved text with rows and leaves the
    store as it is, the run branch renders the table and then "Returned n
    rows" with n the number of rows of that table. *)
Theorem rows_and_their_count :
  forall engine hint w raw l ls rows,
    Py.startswith (Py.lower (gate_text raw)) "select" = true ->
    engine (store_of w) (gate_text raw) []
    = Sqlite.Done (store_of w) (l :: ls) rows false ->
    run_clicked_branch engine hint (typed raw w)
    = Returned tt
        (render (st_success ("Returned " ++ Py.str_of_nat (length rows)
                             ++ " rows " ++ check_mark))
           (render (st_dataframe {| df_columns := l :: ls; df_rows := rows |})
              (connected (typed raw w)))).
Proof. intros engine hint w raw l ls rows. apply run_branch_rows. Qed.

Lemma rows_and_their_count_witness :
  run_clicked_branch Sqlite.engine no_hint
    (typed "  select count(*) as n from orders where status='PAID' ; "
       (after_reset fresh))
  = Returned tt
      (render (st_success ("Returned 1 rows " ++ check_mark))
         (render (st_dataframe {| df_columns := ["n"];
                                  df_rows := [[Sqlite.Int 4]] |})
            (connected
               (typed "  select count(*) as n from orders where status='PAID' ; "
                  (after_reset fresh))))).
Proof.
  exact (rows_and_their_count Sqlite.engine no_hint (after_reset fresh)
           "  select count(*) as n from orders where status='PAID' ; "
           "n" [] [[Sqlite.Int 4]] eq_refl eq_refl).
Defined.

(** ** The reset button, pressed once and again *)

Lemma insert_seed_twice {V} (m : gmap string V) (o u : V) :
  <["orders" := o]> (<["users" := u]> (<["orders" := o]> (<["users" := u]> m)))
  = <["orders" := o]> (<["users" := u]> m).
Proof.
  apply map_eq. intros k.
  destruct (decide (k = "orders")) as [->|Ho]; [rewrite !lookup_insert_eq; reflexivity|].
  rewrite !(lookup_insert_ne _ "orders" k) by congruence.
  destruct (decide (k = "users")) as [->|Hu]; [rewrite !lookup_insert_eq; reflexivity|].
  rewrite !(lookup_insert_ne _ "users" k) by congruence.
  rewrite !(lookup_insert_ne _ "orders" k) by congruence.
  rewrite !(lookup_insert_ne _ "users" k) by congruence. reflexivity.
Qed.

Lemma reseeded_twice db : reseeded (reseeded db) = reseeded db.
Proof. unfold reseeded. simpl. rewrite !insert_seed_twice. reflexivity. Qed.

(** X6: from any state the reset button leaves the store reseeded and the
    message "Database reset done" on the page; pressed again it leaves the
    very same store: the ids start at 1 again and no row is doubled. *)
Theorem reset_button_twice :
  forall w,
    let done := st_success ("Database reset done " ++ check_mark) in
    reset_clicked_branch Sqlite.engine w
    = Returned tt (render done (after_reset w)) /\
    reset_clicked_branch Sqlite.engine (render done (after_reset w))
    = Returned tt (render done (after_reset (render done (after_reset w)))) /\
    store_file (after_reset (render done (after_reset w)))
    = store_file (after_reset w).
Proof.
  intros w done.
  assert (forall v, reset_clicked_branch Sqlite.engine v
                    = Returned tt (render done (after_reset v))) as H.
  { intros v. unfold reset_clicked_branch, bind. rewrite reset_db_any. reflexivity. }
  split; [apply H|]. split; [apply H|].
  simpl. rewrite reseeded_twice. reflexivity.
Qed.

(** ** The example library *)

(** X7: choosing an entry of the select box other than its first puts that
    example's text into the SQL input, and the run button approves it and
    hands it to [run_query] without its final semicolon; choosing the first
    entry, "Select an example", changes nothing. *)
Theorem examples_pass_the_gate :
  forall engine hint w choice,
    In choice example_options ->
    (choice = no_example /\ load_example choice w = Returned tt w) \/
    (exists sql t,
       In (choice, sql) EXAMPLES /\ sql = t ++ ";" /\
       load_example choice w = Returned tt (typed sql w) /\
       run_clicked_branch engine hint (typed sql w)
       = respond engine hint (Spec.Approved t) (typed sql w)).
Proof.
  intros engine hint w choice H. simpl in H.
  destruct H as [<-|H]; [left; split; reflexivity|]. right.
  repeat (destruct H as [<-|H];
          [eexists; eexists;
           split; [simpl; auto 10|];
           split; [|split; [reflexivity|rewrite run_clicked_branch_gate; reflexivity]];
           reflexivity|]).
  destruct H.
Qed.

Lemma examples_pass_the_gate_witness :
  load_example "Users from Goa" fresh
  = Returned tt (typed "SELECT * FROM users WHERE city='Goa';" fresh) /\
  load_example "Select an example" fresh = Returned tt fresh.
Proof.
  split.
  - destruct (examples_pass_the_gate Sqlite.engine no_hint fresh "Users from Goa"
                ltac:(simpl; auto)) as [[H _]|[sql [t [_ [_ [_ _]]]]]];
      [discriminate H | reflexivity].
  - destruct (examples_pass_the_gate Sqlite.engine no_hint fresh "Select an example"
                ltac:(simpl; auto)) as [[_ H]|[sql [t [Hin _]]]];
      [exact H | reflexivity].
Defined.

Lemma engine_all_users db :
  Sqlite.engine (reseeded db) "SELECT * FROM users" []
  = Sqlite.Done (reseeded db) ["id"; "name"; "email"; "city"]
      (Sqlite.tbl_rows users_table) false.
Proof.
  unfold Sqlite.engine.
  change (Sqlite.parse "SELECT * FROM users")
    with (Sqlite.Stmt (Sqlite.Select Sqlite.SelStar "users" None)).
  unfold Sqlite.exec, Sqlite.select_rows, Sqlite.lookup_table.
  change (Sqlite.fold_name "users") with "users".
  rewrite reseeded_users. reflexivity.
Qed.

Lemma engine_users_from_goa db :
  Sqlite.engine (reseeded db) "SELECT * FROM users WHERE city='Goa'" []
  = Sqlite.Done (reseeded db) ["id"; "name"; "email"; "city"]
      [[Sqlite.Int 1; Sqlite.Text "Adarsh"; Sqlite.Text "adarsh@mail.com";
        Sqlite.Text "Goa"]] false.
Proof.
  unfold Sqlite.engine.
  change (Sqlite.parse "SELECT * FROM users WHERE city='Goa'")
    with (Sqlite.Stmt (Sqlite.Select Sqlite.SelStar "users" (Some ("city", "Goa")))).
  unfold Sqlite.exec, Sqlite.select_rows, Sqlite.lookup_table.
  change (Sqlite.fold_name "users") with "users".
  rewrite reseeded_users. reflexivity.
Qed.

(** X8: from any state, a reset followed by loading the example "Show all
    users" and pressing run renders the four seed accounts and "Returned 4
    rows"; with the example "Users from Goa" it renders the one account from
    Goa, Adarsh, and "Returned 1 rows". *)
Theorem examples_after_reset :
  forall hint w,
    let columns := ["id"; "name"; "email"; "city"] in
    bind (reset_db Sqlite.engine)
      (fun _ => bind (load_example "Show all users")
                  (fun _ => run_clicked_branch Sqlite.engine hint)) w
    = Returned tt
        (render (st_success ("Returned 4 rows " ++ check_mark))
           (render (st_dataframe {| df_columns := columns;
                                    df_rows := Sqlite.tbl_rows users_table |})
              (connected (typed "SELECT * FROM users;" (after_reset w))))) /\
    bind (reset_db Sqlite.engine)
      (fun _ => bind (load_example "Users from Goa")
                  (fun _ => run_clicked_branch Sqlite.engine hint)) w
    = Returned tt
        (render (st_success ("Returned 1 rows " ++ check_mark))
           (render (st_dataframe
                      {| df_columns := columns;
                         df_rows := [[Sqlite.Int 1; Sqlite.Text "Adarsh";
                                      Sqlite.Text "adarsh@mail.com";
                                      Sqlite.Text "Goa"]] |})
              (connected (typed "SELECT * FROM users WHERE city='Goa';"
                            (after_reset w))))).
Proof.
  intros hint w columns. unfold bind. rewrite reset_db_any. split.
  - change (load_example "Show all users" (after_reset w))
      with (Returned tt (typed "SELECT * FROM users;" (after_reset w))).
    apply (run_branch_rows Sqlite.engine hint (after_reset w) "SELECT * FROM users;"
             "id" ["name"; "email"; "city"] (Sqlite.tbl_rows users_table));
      [reflexivity | apply engine_all_users].
  - change (load_example "Users from Goa" (after_reset w))
      with (Returned tt (typed "SELECT * FROM users WHERE city='Goa';"
                           (after_reset w))).
    apply (run_branch_rows Sqlite.engine hint (after_reset w)
             "SELECT * FROM users WHERE city='Goa';"
             "id" ["name"; "email"; "city"]);
      [reflexivity | apply engine_users_from_goa].
Qed.

(** ** The seed orders and the ids they are given *)

Section Orders.

Lemma collect_cons {A} (m : M A) ms w a :
  m w = Returned a w ->
  collect (m :: ms) w
  = match collect ms w with
    | Returned l w' => Returned (a :: l) w'
    | Raised e w' => Raised e w'
    | Stuck => Stuck
    end.
Proof. intros H. simpl. unfold bind. rewrite H. destruct (collect ms w); reflexivity. Qed.

Lemma order_tuple_found id_map owner amount status created_at v w :
  id_map !! owner = Some v ->
  order_tuple id_map owner amount status created_at w
  = Returned [v; Sqlite.Int amount; Sqlite.Text status; Sqlite.Text created_at] w.
Proof. intros H. unfold order_tuple, bind, getitem. rewrite H. reflexivity. Qed.

Lemma order_tuple_missing id_map owner amount status created_at w :
  id_map !! owner = None ->
  order_tuple id_map owner amount status created_at w
  = Raised (KeyError ("'" ++ owner ++ "'")) w.
Proof. intros H. unfold order_tuple, bind, getitem. rewrite H. reflexivity. Qed.

End Orders.

(** X10: when the ids read back lack one of the four seeded names, building
    the orders raises KeyError for the first name that is missing, in the
    order Adarsh, Pranjali, Rahul, Amit, and touches nothing. *)
Theorem orders_missing_name :
  forall (id_map : gmap string Sqlite.value) i name w,
    list_find (fun n => id_map !! n = None) seed_names = Some (i, name) ->
    orders id_map w = Raised (KeyError ("'" ++ name ++ "'")) w.
Proof.
  intros id_map i name w H. unfold seed_names in H. simpl in H. unfold orders.
  destruct (id_map !! "Adarsh") as [a|] eqn:Ha.
  2:{ rewrite decide_True in H by reflexivity. inversion H; subst.
      simpl. unfold bind.
      rewrite (order_tuple_missing _ _ _ _ _ _ Ha). reflexivity. }
  rewrite decide_False in H by discriminate.
  rewrite !(collect_cons _ _ _ _ (order_tuple_found _ _ _ _ _ _ _ Ha)).
  destruct (id_map !! "Pranjali") as [p|] eqn:Hp.
  2:{ rewrite decide_True in H by reflexivity. inversion H; subst.
      simpl. unfold bind.
      rewrite (order_tuple_missing _ _ _ _ _ _ Hp). reflexivity. }
  rewrite decide_False in H by discriminate.
  rewrite !(collect_cons _ _ _ _ (order_tuple_found _ _ _ _ _ _ _ Hp)).
  destruct (id_map !! "Rahul") as [r|] eqn:Hr.
  2:{ rewrite decide_True in H by reflexivity. inversion H; subst.
      simpl. unfold bind.
      rewrite (order_tuple_missing _ _ _ _ _ _ Hr). reflexivity. }
  rewrite decide_False in H by discriminate.
  rewrite !(collect_cons _ _ _ _ (order_tuple_found _ _ _ _ _ _ _ Hr)).
  destruct (id_map !! "Amit") as [m|] eqn:Hm.
  2:{ rewrite decide_True in H by reflexivity. inversion H; subst.
      simpl. unfold bind.
      rewrite (order_tuple_missing _ _ _ _ _ _ Hm). reflexivity. }
  rewrite decide_False in H by discriminate.
  discriminate H.
Qed.

Lemma orders_missing_name_witness :
  orders (<["Adarsh" := Sqlite.Int 1]> ∅) fresh
  = Raised (KeyError "'Pranjali'") fresh.
Proof.
  exact (orders_missing_name (<["Adarsh" := Sqlite.Int 1]> ∅) 1%nat "Pranjali"
           fresh eq_refl).
Defined.

(** ** The schema viewer and the first run *)

(** X11: on a store that has neither table the schema viewer does not
    fail: it returns an empty listing for [users] and for [orders] and leaves
    the store as it is. *)
Theorem schema_of_missing_tables :
  forall hint w,
    Sqlite.db_tables (store_of w) !! "users" = None ->
    Sqlite.db_tables (store_of w) !! "orders" = None ->
    get_schema_summary Sqlite.engine hint w
    = Returned [("users", no_columns); ("orders", no_columns)] (connected w) /\
    store_of (connected w) = store_of w.
Proof.
  intros hint w Hu Ho. split; [|reflexivity].
  rewrite get_schema_summary_live. unfold describe. rewrite Hu, Ho. reflexivity.
Qed.

Lemma schema_of_missing_tables_witness :
  get_schema_summary Sqlite.engine no_hint empty_file
  = Returned [("users", no_columns); ("orders", no_columns)]
      (connected empty_file).
Proof.
  exact (proj1 (schema_of_missing_tables no_hint empty_file eq_refl eq_refl)).
Defined.

(** X12: what the script's start does to the panel on the right, [init_db]
    followed by [get_schema_summary]: without a store file the store is
    seeded first and the seed schema is listed; with a store file nothing is
    seeded and the tables of that file are listed as they are. *)
Theorem schema_at_start :
  forall hint w,
    bind (init_db Sqlite.engine) (fun _ => get_schema_summary Sqlite.engine hint) w
    = match store_file w with
      | None => Returned seed_summary (connected (after_reset w))
      | Some db =>
          Returned [("users", describe db "users"); ("orders", describe db "orders")]
            (connected w)
      end.
Proof.
  intros hint w. unfold bind. destruct (store_file w) as [db|] eqn:F.
  - rewrite init_db_present by (unfold file_exists; rewrite F; eauto).
    rewrite get_schema_summary_live. unfold store_of. rewrite F. reflexivity.
  - rewrite init_db_absent by exact F.
    rewrite reset_db_any, get_schema_summary_live.
    unfold describe, store_of, after_reset. simpl store_file. simpl default.
    rewrite reseeded_users, reseeded_orders. reflexivity.
Qed.

(** X13: any store access makes the store file exist, so [init_db] after
    it does nothing: a query or a schema listing made on a missing file
    before [init_db] leaves an empty store that is never seeded. *)
Theorem access_before_init :
  forall engine hint q w,
    match run_query engine hint q w with
    | Stuck => True
    | Raised _ w' | Returned _ w' => init_db engine w' = Returned tt w'
    end /\
    match get_schema_summary engine hint w with
    | Stuck => True
    | Raised _ w' | Returned _ w' => init_db engine w' = Returned tt w'
    end /\
    bind (get_schema_summary Sqlite.engine hint)
      (fun _ => bind (init_db Sqlite.engine)
                  (fun _ => run_query Sqlite.engine hint "SELECT * FROM users")) fresh
    = Raised (DatabaseError
                "Execution failed on sql 'SELECT * FROM users': no such table: users")
        (connected (connected fresh)).
Proof.
  intros engine hint q w. split; [|split].
  - pose proof (run_query_leaves_open engine hint q w) as H.
    destruct (run_query engine hint q w); [exact I | |];
      apply init_db_present, H.
  - pose proof (get_schema_summary_leaves_open engine hint w) as H.
    destruct (get_schema_summary engine hint w); [exact I | |];
      apply init_db_present, H.
  - vm_compute. reflexivity.
Qed.
